(** * The RFIL document-processing endpoint of [app.py]

    A shallow embedding of [process_rfil_workflow] (app.py, lines 84-210):
    the handler of [POST /api/workflow/rfil].  The handler is stateful (it
    logs, creates a directory, writes and removes a temporary file) and
    fallible (it raises [HTTPException], and catches [PdfReadError] and
    [Exception]), so it is written in a state-and-exception monad over a
    small world: the file system, the log, and the trace of the statements
    executed against a collaborator.

    What lives outside the repository (PyPDF2, [json.loads], [uuid], the
    operating system, the clock) is an oracle of the environment record
    [env]; [process_pdf_end_to_end], imported from [src.functions.rfil_utils],
    is a parameter of the handler, of type [routine].

    The functions of [src/integration/database.py] (module [Db]) and the
    session generator of [src/providers/database.py] (module [Providers])
    follow, each in a state-and-exception model of its own. *)

From Stdlib Require Import Ascii String.
From stdpp Require Import gmap strings list fin_maps pretty.

#[local] Set Warnings "-register-all".

(** ** Python strings *)

Module PyStr.

(** [str.lower] on one character.  File names are byte strings here; only
    the ASCII letters change, which is all that decides a [".pdf"] suffix. *)
Definition lower_ascii (c : ascii) : ascii :=
  let n := nat_of_ascii c in
  if (65 <=? n)%nat && (n <=? 90)%nat then ascii_of_nat (n + 32) else c.

Fixpoint lower (s : string) : string :=
  match s with
  | EmptyString => EmptyString
  | String c s' => String (lower_ascii c) (lower s')
  end.

(** [s.endswith(suf)]: the last [len(suf)] characters of [s] are [suf]. *)
Definition endswith (s suf : string) : bool :=
  let n := String.length s in
  let m := String.length suf in
  (m <=? n)%nat && String.eqb (substring (n - m) m s) suf.

(** [os.path.join(a, b)] for a relative [b]. *)
Definition path_join (a b : string) : string :=
  if String.eqb a "" || endswith a "/" then a +:+ b else a +:+ "/" +:+ b.

End PyStr.

(** ** JSON values and Python dictionaries

    A [dict] with string keys is a [gmap string _]; [json.loads] and the
    body of a [JSONResponse] range over [json]. *)

Inductive json : Type :=
| JNull
| JBool (b : bool)
| JNum (z : Z)
| JStr (s : string)
| JArr (l : list json)
| JObj (m : gmap string json).

(** ** Exceptions *)

Inductive exn : Type :=
| PdfReadError (msg : string)                      (* PyPDF2.errors.PdfReadError *)
| HTTPException (status_code : Z) (detail : string) (* fastapi.HTTPException *)
| OtherException (msg : string).                   (* any other subclass of Exception *)

(** [str(e)] *)
Definition str_of_exn (e : exn) : string :=
  match e with
  | PdfReadError msg => msg
  | HTTPException _ detail => detail
  | OtherException msg => msg
  end.

(** [isinstance(e, PyPDF2.errors.PdfReadError)] *)
Definition is_PdfReadError (e : exn) : bool :=
  match e with PdfReadError _ => true | _ => false end.

(** [isinstance(e, Exception)]: every exception modelled here. *)
Definition is_Exception (e : exn) : bool := true.

Inductive result (A : Type) : Type :=
| Ok (a : A)
| Raise (e : exn).
Arguments Ok {A} a.
Arguments Raise {A} e.

(** ** The world of one request *)

Inductive node : Type :=
| Dir
| File (data : string).

Inductive log_record : Type :=
| LogInfo (msg : string)
| LogError (msg : string)
| LogTraceback (e : exn).      (* logger.error(traceback.format_exc()) *)

(** One entry per statement of the handler that consults a collaborator or
    the file system, in program order. *)
Inductive event : Type :=
| EvExtensionCheck (filename : string)                          (* line 119 *)
| EvRead                                                        (* line 125 *)
| EvPdfReader (contents : string)                               (* line 130 *)
| EvPageCount                                                   (* line 133 *)
| EvExtractText (page_index : nat)                              (* line 141 *)
| EvUuid                                                        (* line 147 *)
| EvMakedirs (path : string)                                    (* line 151 *)
| EvOpen (path : string)                                        (* line 155 *)
| EvWrite (path : string)                                       (* line 158 *)
| EvProcess (path : string) (ocr_language : string) (save_text : bool) (* line 164 *)
| EvRemove (path : string)                                      (* line 191 *)
| EvOcr (page_index : nat) (ocr_language : string).             (* inside the extraction routine *)

Record world : Type := World {
  fs : gmap string node;
  log : list log_record;
  trace : list event
}.

(** ** The state-and-exception monad *)

Definition M (A : Type) : Type := world → result A * world.

#[global] Instance M_ret : MRet M := λ A a w, (Ok a, w).

#[global] Instance M_bind : MBind M := λ A B f m w,
  match m w with
  | (Ok a, w') => f a w'
  | (Raise e, w') => (Raise e, w')
  end.

Definition raise {A} (e : exn) : M A := λ w, (Raise e, w).

(** [try: body except C as e: handler e], where [catches] is [isinstance(_, C)]. *)
Definition try_except {A} (body : M A) (catches : exn → bool) (handler : exn → M A) : M A :=
  λ w, match body w with
       | (Ok a, w') => (Ok a, w')
       | (Raise e, w') => if catches e then handler e w' else (Raise e, w')
       end.

Definition logger_info (msg : string) : M unit :=
  λ w, (Ok tt, World (fs w) (log w ++ [LogInfo msg]) (trace w)).

Definition logger_error (msg : string) : M unit :=
  λ w, (Ok tt, World (fs w) (log w ++ [LogError msg]) (trace w)).

Definition logger_traceback (e : exn) : M unit :=
  λ w, (Ok tt, World (fs w) (log w ++ [LogTraceback e]) (trace w)).

Definition emit (ev : event) : M unit :=
  λ w, (Ok tt, World (fs w) (log w) (trace w ++ [ev])).

Definition get_fs : M (gmap string node) := λ w, (Ok (fs w), w).

Definition put_fs (f : gmap string node) : M unit :=
  λ w, (Ok tt, World f (log w) (trace w)).

Definition lift_result {A} (r : result A) : M A := λ w, (r, w).

(** An operating-system call that the environment may make fail. *)
Definition os_guard (err : option string) : M unit :=
  match err with
  | Some msg => raise (OtherException msg)
  | None => mret tt
  end.

(** An OCR invocation: the page index and the language. *)
Definition ocr_call : Type := nat * string.

(** The extraction routine the handler delegates to: given the path, the OCR
    language and the save-text flag, it reads and may change the file system,
    returns or raises, and reports the OCR invocations it made. *)
Definition routine : Type :=
  string → string → bool → gmap string node →
  result json * gmap string node * list ocr_call.

Definition ev_ocr (c : ocr_call) : event := EvOcr c.1 c.2.

Definition call_process (P : routine) (path lang : string) (save_text : bool) : M json :=
  λ w, let '(r, f', calls) := P path lang save_text (fs w) in
       (r, World f' (log w)
             (trace w ++ EvProcess path lang save_text :: (ev_ocr <$> calls))).

(** ** The submission and the environment *)

(** A value of [request.form()]: a string field, or an [UploadFile]. *)
Inductive form_value : Type :=
| FormStr (s : string)
| FormUpload.

(** What the client sends: the upload [rfil] (its declared file name and its
    bytes) and the form, a mapping from field names to values. *)
Record Submission : Type := {
  filename : string;
  payload : string;
  form : gmap string form_value
}.

(** PyPDF2's objects, by what the handler asks of them. *)
Record PageObject : Type := { extract_text : result string }.
Record PdfReaderObject : Type := { pages : result (list PageObject) }.

(** The collaborators outside the repository, as oracles. *)
Record env : Type := {
  json_loads : string → option json;       (* None: json.JSONDecodeError *)
  read_error : option string;              (* await rfil.read() fails *)
  PdfReader : string → result PdfReaderObject;
  uuid4 : string;                          (* str(uuid.uuid4()) *)
  getcwd : string;
  makedirs_error : option string;
  open_error : option string;
  write_error : option string;
  remove_error : option string;
  processing_time : string                 (* f"{end_time - start_time:.2f}" *)
}.

Record Response : Type := JSONResponse {
  status_code : Z;
  content : json
}.

(** [{"status": "error", "message": msg}] *)
Definition error_content (msg : string) : json :=
  JObj (<["status" := JStr "error"]> (<["message" := JStr msg]> ∅)).

(** ** The calls the handler makes *)

Section Calls.
Context (E : env).

Definition rfil_read (sub : Submission) : M string :=
  emit EvRead ;; os_guard (read_error E) ;; mret (payload sub).

Definition new_PdfReader (contents : string) : M PdfReaderObject :=
  emit (EvPdfReader contents) ;; lift_result (PdfReader E contents).

Definition reader_pages (r : PdfReaderObject) : M (list PageObject) :=
  emit EvPageCount ;; lift_result (pages r).

(** [l[i]] *)
Definition list_index {A} (l : list A) (i : nat) : M A :=
  match l !! i with
  | Some a => mret a
  | None => raise (OtherException "list index out of range")
  end.

Definition page_extract_text (i : nat) (p : PageObject) : M string :=
  emit (EvExtractText i) ;; lift_result (extract_text p).

Definition uuid_uuid4 : M string := emit EvUuid ;; mret (uuid4 E).

(** [os.makedirs(path, exist_ok=True)] *)
Definition os_makedirs (path : string) : M unit :=
  emit (EvMakedirs path) ;;
  os_guard (makedirs_error E) ;;
  f ← get_fs;
  match f !! path with
  | Some (File _) => raise (OtherException "FileExistsError")
  | Some Dir => mret tt
  | None => put_fs (<[path := Dir]> f)
  end.

(** [open(path, "wb")]: creates or truncates the file. *)
Definition open_wb (path : string) : M unit :=
  emit (EvOpen path) ;;
  os_guard (open_error E) ;;
  f ← get_fs;
  match f !! path with
  | Some Dir => raise (OtherException "IsADirectoryError")
  | _ => put_fs (<[path := File ""]> f)
  end.

(** [temp_file.write(data)] on the file opened at [path]. *)
Definition file_write (path data : string) : M unit :=
  emit (EvWrite path) ;;
  os_guard (write_error E) ;;
  f ← get_fs;
  put_fs (<[path := File data]> f).

(** [os.remove(path)] *)
Definition os_remove (path : string) : M unit :=
  emit (EvRemove path) ;;
  os_guard (remove_error E) ;;
  f ← get_fs;
  match f !! path with
  | Some (File _) => put_fs (delete path f)
  | Some Dir => raise (OtherException "IsADirectoryError")
  | None => raise (OtherException "FileNotFoundError")
  end.

(** ** The loop over [form.items()] (lines 106-116) *)

Definition is_UploadFile (v : form_value) : bool :=
  match v with FormUpload => true | FormStr _ => false end.

Definition collect_field (field_name : string) (field_value : form_value)
    (additional_data : gmap string json) : gmap string json :=
  if String.eqb field_name "rfil" || is_UploadFile field_value then additional_data
  else match field_value with
       | FormStr s =>
           match json_loads E s with
           | Some parsed_value => <[field_name := parsed_value]> additional_data
           | None => <[field_name := JStr s]> additional_data
           end
       | FormUpload => additional_data
       end.

Definition collect_additional_data (f : gmap string form_value) : gmap string json :=
  map_fold collect_field ∅ f.

(** ** The handler (lines 85-210) *)

Definition is_pdf_filename (name : string) : bool :=
  PyStr.endswith (PyStr.lower name) ".pdf".

Definition temp_dir_of : string := PyStr.path_join (getcwd E) "temp_files".

Definition temp_file_path_of (file_id : string) : string :=
  PyStr.path_join temp_dir_of (file_id +:+ ".pdf").

Definition success_data (sub : Submission) (file_id : string) (n_pages : nat)
    (process_results : json) : gmap string json :=
  <["status" := JStr "success"]>
  (<["message" := JStr "PDF file has been processed successfully"]>
  (<["filename" := JStr (filename sub)]>
  (<["file_id" := JStr file_id]>
  (<["pages" := JNum (Z.of_nat n_pages)]>
  (<["process_results" := process_results]> ∅))))).

Definition process_rfil_workflow
    (process_pdf_end_to_end : routine) (sub : Submission) : M Response :=
  logger_info "RFIL workflow endpoint called" ;;
  let additional_data := collect_additional_data (form sub) in
  emit (EvExtensionCheck (filename sub)) ;;
  if negb (is_pdf_filename (filename sub)) then
    logger_error "Non-PDF file submitted" ;;
    raise (HTTPException 400 "Only PDF files are accepted")
  else
    try_except
      (contents ← rfil_read sub;
       try_except
         (pdf_reader ← new_PdfReader contents;
          pdf_pages ← reader_pages pdf_reader;
          if (length pdf_pages <? 1)%nat then
            logger_error "Empty or corrupt PDF submitted" ;;
            mret (JSONResponse 400 (error_content "The PDF file is empty or corrupt"))
          else
            page0 ← list_index pdf_pages 0;
            page_extract_text 0 page0 ;;
            logger_info ("PDF validated successfully: " +:+ filename sub +:+ ", "
                         +:+ pretty (length pdf_pages) +:+ " pages") ;;
            file_id ← uuid_uuid4;
            let temp_dir := temp_dir_of in
            os_makedirs temp_dir ;;
            let temp_file_path := temp_file_path_of file_id in
            open_wb temp_file_path ;;
            file_write temp_file_path contents ;;
            logger_info ("PDF saved to temporary file: " +:+ temp_file_path) ;;
            logger_info "Starting PDF processing with PyMuPDF and Tesseract" ;;
            process_results ← call_process process_pdf_end_to_end
                                temp_file_path "bul+eng" true;
            let response_data :=
              success_data sub file_id (length pdf_pages) process_results in
            let response_data :=
              if decide (additional_data = ∅) then response_data
              else <["additional_data" := JObj additional_data]> response_data in
            logger_info ("Processing completed in " +:+ processing_time E +:+ " seconds") ;;
            let response_data :=
              <["processing_time" := JStr (processing_time E +:+ " seconds")]> response_data in
            os_remove temp_file_path ;;
            logger_info ("Removed temp file: " +:+ temp_file_path) ;;
            mret (JSONResponse 200 (JObj response_data)))
         is_PdfReadError
         (λ e,
            logger_error ("Invalid PDF format: " +:+ str_of_exn e) ;;
            mret (JSONResponse 400 (error_content "The file is not a valid PDF"))))
      is_Exception
      (λ e,
         logger_error ("Error during RFIL processing: " +:+ str_of_exn e) ;;
         logger_traceback e ;;
         mret (JSONResponse 500 (error_content ("An error occurred: " +:+ str_of_exn e)))).

(** FastAPI around the handler: an [HTTPException] that leaves it becomes the
    response [{"detail": detail}] with its status code; any other exception
    that leaves it is the framework's plain 500. *)
Definition post_rfil
    (process_pdf_end_to_end : routine) (sub : Submission) (w : world)
    : Response * world :=
  match process_rfil_workflow process_pdf_end_to_end sub w with
  | (Ok r, w') => (r, w')
  | (Raise (HTTPException code detail), w') =>
      (JSONResponse code (JObj (<["detail" := JStr detail]> ∅)), w')
  | (Raise _, w') => (JSONResponse 500 (JStr "Internal Server Error"), w')
  end.

End Calls.

(** ** The extraction routine

    [process_pdf_end_to_end] is imported from [src/functions/rfil_utils.py],
    which is not among the sources.  The handler above takes it as a
    parameter; this module gives the routine the specification describes. *)

Module Extraction.

(** Modelled from the spec: the method tags of a PageResult (sections 3 and
    4.3) of the missing [process_pdf_end_to_end]. *)
Inductive method : Type := Native | Ocr | Failed.

(** Modelled from the spec: the tags "native", "ocr" and "failed" of
    sections 4.3 and 8, for the missing [process_pdf_end_to_end]. *)
Definition method_tag (m : method) : string :=
  match m with
  | Native => "native"
  | Ocr => "ocr"
  | Failed => "failed"
  end.

(** Modelled from the spec: PageResult of section 3, what the missing
    [process_pdf_end_to_end] records per page. *)
Record PageResult : Type := {
  index : nat;
  method_used : method;
  text : string;
  language_hint : option string
}.

(** Modelled from the spec: the success/failure status of a
    ProcessingResult (section 3) of the missing [process_pdf_end_to_end]. *)
Inductive outcome : Type := Success | Failure.

(** Modelled from the spec: ProcessingResult of section 3, what the missing
    [process_pdf_end_to_end] returns. *)
Record ProcessingResult : Type := {
  status : outcome;
  message : string;
  page_results : list PageResult
}.

(** Modelled from the spec: a page as the missing [process_pdf_end_to_end]
    sees it through the rendering library and the OCR engine (section 4.3):
    its embedded text layer, and what OCR of its raster image gives under a
    language hint (an exception when rendering or recognition fails). *)
Record SourcePage : Type := {
  native_text : string;
  ocr_text : string → result string
}.

(** Modelled from the spec: the collaborators of the missing
    [process_pdf_end_to_end] (section 4.3): the renderer, the usability
    threshold, and the sidecar location of the save-text option. *)
Record engine : Type := {
  open_document : string → option (list SourcePage); (* None: cannot be opened or rendered *)
  min_chars : nat;                                   (* the usability threshold *)
  sidecar_path : string → string;
  sidecar_error : option string
}.

Section Pipeline.
Context (G : engine).

(** Modelled from the spec: section 4.3, step 2 of the missing
    [process_pdf_end_to_end]: native text is kept unless it "is empty or
    shorter than a minimal usability threshold". *)
Definition usable (t : string) : bool :=
  negb (String.eqb t "") && (min_chars G <=? String.length t)%nat.

(** Modelled from the spec: section 4.3, steps 1-3 of the missing
    [process_pdf_end_to_end], for one page: native extraction, else OCR with
    the supplied language hint; an OCR failure is "recorded as an empty
    PageResult text with a method tag of failed".  The second component is
    the OCR invocation, if any. *)
Definition extract_page (lang : string) (i : nat) (p : SourcePage)
    : PageResult * list ocr_call :=
  if usable (native_text p) then
    ({| index := i; method_used := Native; text := native_text p;
        language_hint := None |}, [])
  else
    match ocr_text p lang with
    | Ok t =>
        ({| index := i; method_used := Ocr; text := t;
            language_hint := Some lang |}, [(i, lang)])
    | Raise _ =>
        ({| index := i; method_used := Failed; text := "";
            language_hint := Some lang |}, [(i, lang)])
    end.

(** Modelled from the spec: section 4.3 of the missing
    [process_pdf_end_to_end], "for each page in order". *)
Fixpoint extract_pages (lang : string) (i : nat) (ps : list SourcePage)
    : list PageResult * list ocr_call :=
  match ps with
  | [] => ([], [])
  | p :: ps' =>
      let '(r, evs) := extract_page lang i p in
      let '(rs, evs') := extract_pages lang (S i) ps' in
      (r :: rs, (evs ++ evs')%list)
  end.

(** Modelled from the spec: a page whose OCR failed (section 4.3), in the
    missing [process_pdf_end_to_end]. *)
Definition is_failed (r : PageResult) : bool :=
  match method_used r with Failed => true | _ => false end.

(** Modelled from the spec: "the concatenated extracted text" that the
    missing [process_pdf_end_to_end] saves (section 4.3). *)
Definition concat_text (rs : list PageResult) : string :=
  foldr (λ r acc, text r +:+ acc) "" rs.

(** Modelled from the spec: section 4.3 of the missing
    [process_pdf_end_to_end], the optional sidecar: "persistence errors are
    caught and downgraded to a diagnostic note". *)
Definition save_sidecar (location : string) (rs : list PageResult)
    (f : gmap string node) : string * gmap string node :=
  match sidecar_error G with
  | Some msg => ("text not saved: " +:+ msg, f)
  | None => ("text saved", <[sidecar_path G location := File (concat_text rs)]> f)
  end.

(** Modelled from the spec: the "failed ProcessingResult (rather than
    raising)" of section 4.3, for the missing [process_pdf_end_to_end]. *)
Definition failed_result (msg : string) : ProcessingResult :=
  {| status := Failure; message := msg; page_results := [] |}.

(** Modelled from the spec: section 4.3, the contract
    [extract(location, language_hint) -> ProcessingResult] of the missing
    [process_pdf_end_to_end]; page indices count from 1 as in the scenario
    of section 8. *)
Definition extract (location lang : string) (save_text : bool)
    (f : gmap string node)
    : ProcessingResult * gmap string node * list ocr_call :=
  match f !! location with
  | Some (File data) =>
      match open_document G data with
      | Some ps =>
          let '(rs, evs) := extract_pages lang 1 ps in
          let '(note, f') :=
            if save_text then save_sidecar location rs f else ("", f) in
          if negb (bool_decide (rs = [])) && forallb is_failed rs then
            ({| status := Failure; message := "every page failed; " +:+ note;
                page_results := rs |}, f', evs)
          else
            ({| status := Success; message := note; page_results := rs |}, f', evs)
      | None => (failed_result "document cannot be rendered", f, [])
      end
  | _ => (failed_result "document not found", f, [])
  end.

(** Modelled from the spec: the response shape of section 6,
    [{index, method, text}], for the missing [process_pdf_end_to_end]. *)
Definition json_of_page (r : PageResult) : json :=
  JObj (<["index" := JNum (Z.of_nat (index r))]>
       (<["method" := JStr (method_tag (method_used r))]>
       (<["text" := JStr (text r)]> ∅))).

(** Modelled from the spec: the ProcessingResult of the missing
    [process_pdf_end_to_end] in JSON: status, message and pages. *)
Definition json_of_result (r : ProcessingResult) : json :=
  JObj (<["status" := JStr (match status r with Success => "success" | Failure => "error" end)]>
       (<["message" := JStr (message r)]>
       (<["pages" := JArr (json_of_page <$> page_results r)]> ∅))).

(** Modelled from the spec: the missing [process_pdf_end_to_end] as the
    handler calls it, returning the ProcessingResult of section 3 in JSON
    rather than raising. *)
Definition process_pdf_end_to_end : routine :=
  λ location lang save_text f,
    let '(r, f', evs) := extract location lang save_text f in
    (Ok (json_of_result r), f', evs).

End Pipeline.
End Extraction.

(** ** The validation gate, read off the handler

    The checks of lines 119-141 in the order the handler runs them, as a pure
    function of the submission and the oracles.  [gate_rejects] and
    [gate_accepts] below show that the handler follows it. *)

Inductive rejection : Type :=
| NotAPdfExtension                (* line 119: the name does not end in .pdf *)
| ReadFailed (msg : string)       (* line 125: rfil.read() raised *)
| MalformedPdf (e : exn)          (* line 130: PdfReader(...) raised *)
| PageCountFailed (e : exn)       (* line 133: len(pdf_reader.pages) raised *)
| EmptyDocument                   (* line 133: no page *)
| UnreadableContent (e : exn).    (* line 141: pages[0].extract_text() raised *)

Definition validation_gate (E : env) (sub : Submission) : rejection + list PageObject :=
  if negb (is_pdf_filename (filename sub)) then inl NotAPdfExtension else
  match read_error E with
  | Some msg => inl (ReadFailed msg)
  | None =>
    match PdfReader E (payload sub) with
    | Raise e => inl (MalformedPdf e)
    | Ok r =>
      match pages r with
      | Raise e => inl (PageCountFailed e)
      | Ok [] => inl EmptyDocument
      | Ok (p0 :: ps) =>
        match extract_text p0 with
        | Raise e => inl (UnreadableContent e)
        | Ok _ => inr (p0 :: ps)
        end
      end
    end
  end.

(** What the two [except] clauses (lines 196-210) answer for an exception
    raised inside the inner [try]. *)
Definition exception_response (e : exn) : Response :=
  if is_PdfReadError e
  then JSONResponse 400 (error_content "The file is not a valid PDF")
  else JSONResponse 500 (error_content ("An error occurred: " +:+ str_of_exn e)).

Definition rejection_response (rej : rejection) : Response :=
  match rej with
  | NotAPdfExtension =>
      JSONResponse 400 (JObj (<["detail" := JStr "Only PDF files are accepted"]> ∅))
  | ReadFailed msg => JSONResponse 500 (error_content ("An error occurred: " +:+ msg))
  | MalformedPdf e | PageCountFailed e | UnreadableContent e => exception_response e
  | EmptyDocument => JSONResponse 400 (error_content "The PDF file is empty or corrupt")
  end.

(** The events of the four checks (and of reading the upload), in program order. *)
Definition validation_events (sub : Submission) : list event :=
  [EvExtensionCheck (filename sub); EvRead; EvPdfReader (payload sub);
   EvPageCount; EvExtractText 0].

(** How many of them have run when the gate rejects. *)
Definition stage (rej : rejection) : nat :=
  match rej with
  | NotAPdfExtension => 1
  | ReadFailed _ => 2
  | MalformedPdf _ => 3
  | PageCountFailed _ | EmptyDocument => 4
  | UnreadableContent _ => 5
  end.

(** The events after the gate, when nothing fails: lines 147-191. *)
Definition storage_events (E : env) (calls : list ocr_call) : list event :=
  [EvUuid; EvMakedirs (temp_dir_of E);
   EvOpen (temp_file_path_of E (uuid4 E));
   EvWrite (temp_file_path_of E (uuid4 E));
   EvProcess (temp_file_path_of E (uuid4 E)) "bul+eng" true]
  ++ (ev_ocr <$> calls) ++ [EvRemove (temp_file_path_of E (uuid4 E))].

(** The body of the success response (lines 171-188). *)
Definition final_data (E : env) (sub : Submission) (n : nat) (res : json)
    : gmap string json :=
  <["processing_time" := JStr (processing_time E +:+ " seconds")]>
    (if decide (collect_additional_data E (form sub) = ∅)
     then success_data sub (uuid4 E) n res
     else <["additional_data" := JObj (collect_additional_data E (form sub))]>
            (success_data sub (uuid4 E) n res)).

(** What a form field is returned as: lines 112-116. *)
Definition decoded (E : env) (s : string) : json :=
  match json_loads E s with
  | Some parsed_value => parsed_value
  | None => JStr s
  end.

(** The entry a form field contributes to [additional_data], if any:
    lines 108-116. *)
Definition field_entry (E : env) (name : string) (v : form_value) : option json :=
  match v with
  | FormStr s => if String.eqb name "rfil" then None else Some (decoded E s)
  | FormUpload => None
  end.

(** The case variants of the suffix [".pdf"]. *)
Definition pdf_suffix_variants : list string :=
  [".pdf"; ".pdF"; ".pDf"; ".pDF"; ".Pdf"; ".PdF"; ".PDf"; ".PDF"].





(** ** Concrete submissions and environments, used in the examples *)

Module Demo.

(** A [json.loads] that knows three documents. *)
Definition demo_json_loads (s : string) : option json :=
  if String.eqb s "42" then Some (JNum 42)
  else if String.eqb s "[1, 2]" then Some (JArr [JNum 1; JNum 2])
  else if String.eqb s "true" then Some (JBool true)
  else None.

Definition page_ok (t : string) : PageObject := {| extract_text := Ok t |}.

(** A PyPDF2 that reads ["%PDF-3p"] as three pages, ["%PDF-0p"] as none,
    ["%PDF-filter"] as one page whose content stream uses a filter it does
    not implement, and nothing else. *)
Definition demo_PdfReader (data : string) : result PdfReaderObject :=
  if String.eqb data "%PDF-3p" then
    Ok {| pages := Ok [page_ok "one"; page_ok ""; page_ok "three"] |}
  else if String.eqb data "%PDF-0p" then Ok {| pages := Ok [] |}
  else if String.eqb data "%PDF-filter" then
    Ok {| pages := Ok [ {| extract_text :=
                             Raise (OtherException "unsupported filter /JBIG2Decode") |} ] |}
  else Raise (PdfReadError "EOF marker not found").

Definition demo_env : env := {|
  json_loads := demo_json_loads;
  read_error := None;
  PdfReader := demo_PdfReader;
  uuid4 := "0b5e";
  getcwd := "/srv/app";
  makedirs_error := None;
  open_error := None;
  write_error := None;
  remove_error := None;
  processing_time := "0.42"
|}.

(** The same, on a host where the temporary file cannot be removed. *)
Definition demo_env_remove_fails : env := {|
  json_loads := demo_json_loads;
  read_error := None;
  PdfReader := demo_PdfReader;
  uuid4 := "0b5e";
  getcwd := "/srv/app";
  makedirs_error := None;
  open_error := None;
  write_error := None;
  remove_error := Some "[Errno 13] Permission denied";
  processing_time := "0.42"
|}.

Definition demo_form : gmap string form_value :=
  <["rfil" := FormUpload]>
  (<["ocr_language" := FormStr "eng"]>
  (<["copies" := FormStr "42"]>
  (<["note" := FormStr "urgent, please"]> ∅))).

Definition submission (name data : string) : Submission :=
  {| filename := name; payload := data; form := demo_form |}.

Definition demo_temp_path : string := "/srv/app/temp_files/0b5e.pdf".

(** The world before the request: the working directory, empty log and trace. *)
Definition demo_world : world := World (<["/srv/app" := Dir]> ∅) [] [].

(** A routine that raises, one that returns, one that returns the language
    it was called with. *)
Definition routine_raises : routine :=
  λ _ _ _ f, (Raise (OtherException "cannot open document"), f, []).

Definition routine_returns : routine :=
  λ _ _ _ f, (Ok JNull, f, []).

Definition routine_echo : routine :=
  λ _ lang _ f, (Ok (JStr lang), f, []).

(** The rendering and OCR side of ["%PDF-3p"]: pages 1 and 3 carry text,
    page 2 is a scan that OCR reads. *)
Definition text_page (t : string) : Extraction.SourcePage :=
  {| Extraction.native_text := t; Extraction.ocr_text := λ _, Ok "" |}.

Definition scanned_page : Extraction.SourcePage :=
  {| Extraction.native_text := "";
     Extraction.ocr_text := λ lang, Ok ("scanned text, read as " +:+ lang) |}.

Definition demo_source_pages : list Extraction.SourcePage :=
  [text_page "first page text"; scanned_page; text_page "third page text"].

Definition demo_engine : Extraction.engine := {|
  Extraction.open_document :=
    λ data, if String.eqb data "%PDF-3p" then Some demo_source_pages else None;
  Extraction.min_chars := 10;
  Extraction.sidecar_path := λ location, location +:+ ".txt";
  Extraction.sidecar_error := None
|}.



End Demo.

(** ** The workflow store: [src/integration/database.py]

    The functions of [database.py] run against an [AsyncSession].  The
    session is a state: the committed tables and the calls made on it.  A
    call may fail as the environment decides ([faults]).  The ORM classes
    come from [models.py], which is not among the sources: they are records
    with the attributes the functions use, and the column defaults are
    parameters ([defaults]); [assign_new_values], from
    [src/functions/utils.py], is a parameter too. *)

Module Db.

(** [WorkflowStructure], by the attributes read and written in
    [database.py].  A column holds a JSON value ([JNull] for [None]); the two
    timestamps hold a datetime, given by its [isoformat()], or [None]. *)
Record WorkflowStructure : Type := {
  id : json;
  name : json;
  description : json;
  status : json;
  fields : json;
  api_config : json;
  category : json;
  version : json;
  is_published : json;
  created_by : json;
  is_deleted : json;
  created_at : option string;
  updated_at : option string
}.

(** [WorkflowFormStructure], by the attributes read in [get_workflow_by_id]. *)
Record WorkflowFormStructure : Type := {
  form_id : json;
  form_name : json;
  form_description : json;
  form_status : json;
  form_fields : json;
  form_api_config : json;
  form_is_published : json
}.

(** [WorkflowSubmission], by the attributes set in [create_workflow_submission]. *)
Record WorkflowSubmission : Type := {
  workflow_id : json;
  is_positive : bool
}.

(** What a column not named by [create_workflow] gets on insert. *)
Record defaults : Type := {
  default_is_deleted : json;
  default_created_at : option string;
  default_updated_at : option string
}.

(** The committed tables. *)
Record database : Type := Database {
  workflow_structure : list WorkflowStructure;
  workflow_form_structure : list WorkflowFormStructure;
  workflow_submission : list WorkflowSubmission
}.

Inductive db_call : Type :=
| CallExecute
| CallAdd
| CallCommit
| CallRollback.

Record session : Type := Session {
  store : database;
  calls : list db_call
}.

(** Which calls of the session raise, and with what message. *)
Record faults : Type := {
  execute_error : option string;
  commit_error : option string;
  rollback_error : option string
}.

Definition DB (A : Type) : Type := session → result A * session.

#[global] Instance DB_ret : MRet DB := λ A a s, (Ok a, s).

#[global] Instance DB_bind : MBind DB := λ A B f m s,
  match m s with
  | (Ok a, s') => f a s'
  | (Raise e, s') => (Raise e, s')
  end.

Definition db_raise {A} (e : exn) : DB A := λ s, (Raise e, s).

Definition db_lift {A} (r : result A) : DB A := λ s, (r, s).

(** [try: body except Exception as e: handler e] *)
Definition db_try {A} (body : DB A) (handler : exn → DB A) : DB A :=
  λ s, match body s with
       | (Ok a, s') => (Ok a, s')
       | (Raise e, s') => handler e s'
       end.

Definition db_call_event (c : db_call) : DB unit :=
  λ s, (Ok tt, Session (store s) (calls s ++ [c])).

Definition db_get_store : DB database := λ s, (Ok (store s), s).

Definition db_put_store (d : database) : DB unit :=
  λ s, (Ok tt, Session d (calls s)).

Definition db_guard (err : option string) : DB unit :=
  match err with
  | Some msg => db_raise (OtherException msg)
  | None => mret tt
  end.

(** SQL [column = :value] for a string value: true on that string only. *)
Definition sql_eq_str (value : string) (column : json) : bool :=
  match column with
  | JStr s => String.eqb s value
  | _ => false
  end.

(** SQL [column = false]: true on the boolean false only (not on NULL). *)
Definition sql_is_false (column : json) : bool :=
  match column with
  | JBool false => true
  | _ => false
  end.

(** [data.get(key)] and [data.get(key, default)] *)
Definition dict_get (data : gmap string json) (key : string) : json :=
  default JNull (data !! key).

Definition dict_get_default (data : gmap string json) (key : string) (d : json) : json :=
  default d (data !! key).

(** [{"status": "error", "message": msg}] and [{"status": "success", "message": msg}] *)
Definition error_dict (msg : string) : json :=
  JObj (<["status" := JStr "error"]> (<["message" := JStr msg]> ∅)).

Definition success_dict (msg : string) : json :=
  JObj (<["status" := JStr "success"]> (<["message" := JStr msg]> ∅)).

Definition not_found (workflow_id : string) : json :=
  error_dict ("Workflow with id " +:+ workflow_id +:+ " not found").

Section Functions.
Context (F : faults).

(** [await db.execute(select(WorkflowStructure).where(cond))] followed by
    [result.scalars()]: the rows of the table that satisfy [cond]. *)
Definition execute_select_workflows (cond : WorkflowStructure → bool)
    : DB (list WorkflowStructure) :=
  db_call_event CallExecute ;;
  db_guard (execute_error F) ;;
  d ← db_get_store;
  mret (List.filter cond (workflow_structure d)).

Definition execute_select_forms (cond : WorkflowFormStructure → bool)
    : DB (list WorkflowFormStructure) :=
  db_call_event CallExecute ;;
  db_guard (execute_error F) ;;
  d ← db_get_store;
  mret (List.filter cond (workflow_form_structure d)).

(** [result.scalar_one_or_none()] *)
Definition scalar_one_or_none {A} (rows : list A) : DB (option A) :=
  match rows with
  | [] => mret None
  | [row] => mret (Some row)
  | _ => db_raise (OtherException
                     "Multiple rows were found when one or none was required")
  end.

(** [db.add(obj)] *)
Definition db_add : DB unit := db_call_event CallAdd.

(** [await db.commit()]: the pending state becomes the committed one. *)
Definition db_commit (pending : database) : DB unit :=
  db_call_event CallCommit ;;
  db_guard (commit_error F) ;;
  db_put_store pending.

(** [await db.rollback()]: the pending state is dropped. *)
Definition db_rollback : DB unit :=
  db_call_event CallRollback ;;
  db_guard (rollback_error F).

(** [x.isoformat()] *)
Definition isoformat (x : option string) : result string :=
  match x with
  | Some s => Ok s
  | None => Raise (OtherException "'NoneType' object has no attribute 'isoformat'")
  end.

(** The dictionary built per workflow in [get_all_workflows] (lines 49-62). *)
Definition workflow_list_entry (workflow : WorkflowStructure) : result json :=
  match isoformat (created_at workflow) with
  | Raise e => Raise e
  | Ok created =>
    match isoformat (updated_at workflow) with
    | Raise e => Raise e
    | Ok updated =>
        Ok (JObj (<["id" := id workflow]>
                 (<["name" := name workflow]>
                 (<["description" := description workflow]>
                 (<["status" := status workflow]>
                 (<["fields" := fields workflow]>
                 (<["apiConfig" := api_config workflow]>
                 (<["category" := category workflow]>
                 (<["version" := version workflow]>
                 (<["isPublished" := is_published workflow]>
                 (<["createdAt" := JStr created]>
                 (<["updatedAt" := JStr updated]>
                 (<["createdBy" := created_by workflow]> ∅)))))))))))))
    end
  end.

(** The list comprehension of [get_all_workflows]. *)
Fixpoint workflow_list (workflows : list WorkflowStructure) : result (list json) :=
  match workflows with
  | [] => Ok []
  | workflow :: rest =>
      match workflow_list_entry workflow with
      | Raise e => Raise e
      | Ok entry =>
          match workflow_list rest with
          | Raise e => Raise e
          | Ok entries => Ok (entry :: entries)
          end
      end
  end.

(** [get_all_workflows] (lines 40-68) *)
Definition get_all_workflows : DB json :=
  db_try
    (workflows ← execute_select_workflows (λ w, sql_is_false (is_deleted w));
     workflow_list_ ← db_lift (workflow_list workflows);
     mret (JArr workflow_list_))
    (λ e, mret (error_dict (str_of_exn e))).

(** [get_workflow_by_id] (lines 70-94) *)
Definition get_workflow_by_id (workflow_id_ : string) : DB json :=
  db_try
    (rows ← execute_select_forms (λ w, sql_eq_str workflow_id_ (form_id w));
     workflow ← scalar_one_or_none rows;
     match workflow with
     | None => mret (not_found workflow_id_)
     | Some workflow =>
         mret (JObj (<["id" := form_id workflow]>
                    (<["name" := form_name workflow]>
                    (<["description" := form_description workflow]>
                    (<["status" := form_status workflow]>
                    (<["fields" := form_fields workflow]>
                    (<["apiConfig" := form_api_config workflow]>
                    (<["isPublished" := form_is_published workflow]> ∅))))))))
     end)
    (λ e, mret (error_dict (str_of_exn e))).

(** The table after the one row with this id has been changed in place. *)
Definition with_row (workflow_id_ : string) (workflow : WorkflowStructure)
    (d : database) : database :=
  Database
    (map (λ w, if sql_eq_str workflow_id_ (id w) then workflow else w)
         (workflow_structure d))
    (workflow_form_structure d)
    (workflow_submission d).

(** [update_workflow] (lines 96-121), with [assign_new_values] a parameter:
    it changes the attributes of the workflow it is given, or raises. *)
Definition update_workflow
    (assign_new_values : WorkflowStructure → gmap string json → result WorkflowStructure)
    (workflow_id_ : string) (workflow_data : gmap string json) : DB json :=
  db_try
    (rows ← execute_select_workflows (λ w, sql_eq_str workflow_id_ (id w));
     workflow ← scalar_one_or_none rows;
     match workflow with
     | None => mret (not_found workflow_id_)
     | Some workflow =>
         workflow' ← db_lift (assign_new_values workflow workflow_data);
         db_add ;;
         d ← db_get_store;
         db_commit (with_row workflow_id_ workflow' d) ;;
         mret (success_dict "Workflow updated successfully")
     end)
    (λ e, db_rollback ;; mret (error_dict (str_of_exn e))).

(** [create_workflow] (lines 123-150) *)
Definition new_workflow (D : defaults) (workflow_data : gmap string json)
    : WorkflowStructure :=
  {| id := dict_get workflow_data "id";
     name := dict_get workflow_data "name";
     description := dict_get workflow_data "description";
     status := dict_get workflow_data "status";
     fields := dict_get workflow_data "fields";
     api_config := dict_get workflow_data "apiConfig";
     category := dict_get workflow_data "category";
     version := dict_get_default workflow_data "version" (JNum 1);
     is_published := dict_get_default workflow_data "isPublished" (JBool false);
     created_by := dict_get workflow_data "createdBy";
     is_deleted := default_is_deleted D;
     created_at := default_created_at D;
     updated_at := default_updated_at D |}.

Definition create_workflow (D : defaults) (workflow_data : gmap string json) : DB json :=
  db_try
    (let new_workflow_ := new_workflow D workflow_data in
     db_add ;;
     d ← db_get_store;
     db_commit (Database (workflow_structure d ++ [new_workflow_])
                         (workflow_form_structure d) (workflow_submission d)) ;;
     mret (success_dict "Workflow created successfully"))
    (λ e, db_rollback ;; mret (error_dict (str_of_exn e))).

(** [delete_workflow] (lines 152-177) *)
Definition mark_deleted (workflow : WorkflowStructure) : WorkflowStructure :=
  {| id := id workflow; name := name workflow; description := description workflow;
     status := status workflow; fields := fields workflow;
     api_config := api_config workflow; category := category workflow;
     version := version workflow; is_published := is_published workflow;
     created_by := created_by workflow;
     is_deleted := JBool true;
     created_at := created_at workflow; updated_at := updated_at workflow |}.

Definition delete_workflow (workflow_id_ : string) : DB json :=
  db_try
    (rows ← execute_select_workflows (λ w, sql_eq_str workflow_id_ (id w));
     workflow ← scalar_one_or_none rows;
     match workflow with
     | None => mret (not_found workflow_id_)
     | Some workflow =>
         d ← db_get_store;
         db_commit (with_row workflow_id_ (mark_deleted workflow) d) ;;
         mret (success_dict "Workflow deleted successfully")
     end)
    (λ e, db_rollback ;; mret (error_dict (str_of_exn e))).

(** [submission_data.get('feedback') == "positive"] *)
Definition is_positive_feedback (submission_data : gmap string json) : bool :=
  match dict_get submission_data "feedback" with
  | JStr s => String.eqb s "positive"
  | _ => false
  end.

(** [create_workflow_submission] (lines 179-198) *)
Definition create_workflow_submission (submission_data : gmap string json) : DB json :=
  db_try
    (let new_submission :=
       {| workflow_id := dict_get submission_data "workflowId";
          is_positive := is_positive_feedback submission_data |} in
     db_add ;;
     d ← db_get_store;
     db_commit (Database (workflow_structure d) (workflow_form_structure d)
                         (workflow_submission d ++ [new_submission])) ;;
     mret (success_dict "Workflow submission created successfully"))
    (λ e, db_rollback ;; mret (error_dict (str_of_exn e))).

End Functions.
End Db.

(** ** The session dependency: [src/providers/database.py]

    [get_db] is a generator: it opens a session, yields it inside a [try],
    and closes it in the [finally].  A generator object is a state (not
    started, suspended at the [yield], finished) driven by [next], [throw]
    and [close]; [SessionLocal()] and [db.close()] may raise, as the
    environment decides. *)

Module Providers.

Inductive session_event : Type :=
| Opened      (* db = SessionLocal() returned *)
| Closed.     (* db.close() was called *)

Inductive frame : Type :=
| NotStarted
| AtYield
| Finished.

Record generator : Type := Generator {
  frame_of : frame;
  events : list session_event
}.

(** What a call on the generator object gives its caller. *)
Inductive outcome : Type :=
| Yielded                (* the session *)
| StopIteration
| Returned               (* close() returns None *)
| Raised (e : exn).

Inductive operation : Type :=
| Next
| Throw (e : exn)
| Close.

Record session_faults : Type := {
  open_error : option string;    (* SessionLocal() raises *)
  close_error : option string    (* db.close() raises *)
}.

Section GetDb.
Context (F : session_faults).

(** The [finally] clause: [db.close()]; what [pending] says happens
    afterwards unless [close()] itself raised. *)
Definition run_finally (pending : outcome) (evs : list session_event)
    : outcome * generator :=
  match close_error F with
  | Some msg => (Raised (OtherException msg), Generator Finished (evs ++ [Closed]))
  | None => (pending, Generator Finished (evs ++ [Closed]))
  end.

(** [get_db] (lines 14-19), one call on its generator object. *)
Definition get_db_step (op : operation) (g : generator) : outcome * generator :=
  match frame_of g, op with
  | NotStarted, Next =>
      match open_error F with
      | Some msg => (Raised (OtherException msg), Generator Finished (events g))
      | None => (Yielded, Generator AtYield (events g ++ [Opened]))
      end
  | NotStarted, Throw e => (Raised e, Generator Finished (events g))
  | NotStarted, Close => (Returned, Generator Finished (events g))
  | AtYield, Next => run_finally StopIteration (events g)
  | AtYield, Throw e => run_finally (Raised e) (events g)
  | AtYield, Close => run_finally Returned (events g)
  | Finished, Next => (StopIteration, g)
  | Finished, Throw e => (Raised e, g)
  | Finished, Close => (Returned, g)
  end.

(** A caller's calls, one after the other. *)
Definition get_db_run (ops : list operation) (g : generator) : generator :=
  foldl (λ g op, (get_db_step op g).2) g ops.

End GetDb.

(** [get_db()]: the generator object, before any call. *)
Definition get_db : generator := Generator NotStarted [].

(** The states a generator of [get_db] can be in, with what has happened
    to the session so far. *)
Definition session_history (g : generator) : Prop :=
  match frame_of g with
  | NotStarted => events g = []
  | AtYield => events g = [Opened]
  | Finished => events g = [] ∨ events g = [Opened; Closed]
  end.

End Providers.

(** ** Vocabulary of the properties below *)



(** The ["id"] of an entry of the workflow listing is this string. *)
Definition entry_has_id (wid : string) (entry : json) : bool :=
  match entry with
  | JObj m => match m !! "id" with
              | Some j => Db.sql_eq_str wid j
              | None => false
              end
  | _ => false
  end.

(** The rows [get_all_workflows] selects. *)
Definition visible (w : Db.WorkflowStructure) : bool :=
  Db.sql_is_false (Db.is_deleted w).

(** The keys [create_workflow] stores as they come, and [get_all_workflows]
    returns under the same names. *)
Definition copied_keys : list string :=
  ["id"; "name"; "description"; "status"; "fields"; "apiConfig"; "category";
   "createdBy"].

(** A run of a function of [database.py] returns a value, or else it is the
    rollback of its [except] clause that raised. *)
Definition returns_or_rollback_raised (F : Db.faults) (s : Db.session)
    (run : result json * Db.session) : Prop :=
  (∃ j, run.1 = Ok j) ∨
  (∃ msg, Db.rollback_error F = Some msg ∧
          run.1 = Raise (OtherException msg) ∧
          Db.store run.2 = Db.store s).

(** The store is as it was, or the function answered [ok] after a commit. *)
Definition committed_or_unchanged (ok : string) (s : Db.session)
    (run : result json * Db.session) : Prop :=
  (run.1 = Ok (Db.success_dict ok) ∧ ∃ c, Db.calls run.2 = c ++ [Db.CallCommit])
  ∨ Db.store run.2 = Db.store s.

(** ** Concrete stores and hosts, used in the examples *)

Module Examples.

Definition row (i n : string) (deleted : bool) : Db.WorkflowStructure :=
  {| Db.id := JStr i; Db.name := JStr n; Db.description := JNull;
     Db.status := JStr "active"; Db.fields := JArr []; Db.api_config := JNull;
     Db.category := JStr "finance"; Db.version := JNum 1;
     Db.is_published := JBool true; Db.created_by := JStr "admin";
     Db.is_deleted := JBool deleted;
     Db.created_at := Some "2025-02-19T10:27:02";
     Db.updated_at := Some "2025-02-19T10:27:02" |}.

(** A row whose timestamps were never set. *)
Definition row_without_timestamps : Db.WorkflowStructure :=
  {| Db.id := JStr "wf-9"; Db.name := JStr "Imported"; Db.description := JNull;
     Db.status := JNull; Db.fields := JNull; Db.api_config := JNull;
     Db.category := JNull; Db.version := JNum 1;
     Db.is_published := JBool false; Db.created_by := JNull;
     Db.is_deleted := JBool false;
     Db.created_at := None; Db.updated_at := None |}.

Definition demo_db : Db.database :=
  Db.Database
    [row "wf-1" "Invoices" false; row "wf-2" "Receipts" false; row "wf-3" "Old" true]
    []
    [].

Definition demo_session : Db.session := Db.Session demo_db [].

Definition poisoned_session : Db.session :=
  Db.Session
    (Db.Database [row "wf-1" "Invoices" false; row_without_timestamps] [] [])
    [].

Definition no_faults : Db.faults :=
  {| Db.execute_error := None; Db.commit_error := None; Db.rollback_error := None |}.

Definition demo_defaults : Db.defaults :=
  {| Db.default_is_deleted := JBool false;
     Db.default_created_at := Some "2025-03-01T08:00:00";
     Db.default_updated_at := Some "2025-03-01T08:00:00" |}.

(** An [assign_new_values] that sets the name from the data. *)
Definition assign_name (w : Db.WorkflowStructure) (data : gmap string json)
    : result Db.WorkflowStructure :=
  Ok {| Db.id := Db.id w; Db.name := Db.dict_get data "name";
        Db.description := Db.description w; Db.status := Db.status w;
        Db.fields := Db.fields w; Db.api_config := Db.api_config w;
        Db.category := Db.category w; Db.version := Db.version w;
        Db.is_published := Db.is_published w; Db.created_by := Db.created_by w;
        Db.is_deleted := Db.is_deleted w;
        Db.created_at := Db.created_at w; Db.updated_at := Db.updated_at w |}.

(** A request body for [create_workflow]: no "isPublished", and an explicit
    null for "version". *)
Definition new_data : gmap string json :=
  <["id" := JStr "wf-4"]>
  (<["name" := JStr "Contracts"]>
  (<["version" := JNull]> ∅)).

Definition rename_data : gmap string json := <["name" := JStr "Archive"]> ∅.

Definition feedback_data : gmap string json :=
  <["workflowId" := JStr "wf-1"]> (<["feedback" := JStr "positive"]> ∅).

(** The listing of [demo_session]. *)
Definition demo_listing : list json :=
  match (Db.get_all_workflows no_faults demo_session).1 with
  | Ok (JArr l) => l
  | _ => []
  end.

(** A host on which the temporary directory cannot be created. *)
Definition demo_env_no_directory : env := {|
  json_loads := Demo.demo_json_loads;
  read_error := None;
  PdfReader := Demo.demo_PdfReader;
  uuid4 := "0b5e";
  getcwd := "/srv/app";
  makedirs_error := Some "[Errno 13] Permission denied";
  open_error := None;
  write_error := None;
  remove_error := None;
  processing_time := "0.42"
|}.

(** A routine that takes the stored file for a broken PDF. *)
Definition routine_pdf_error : routine :=
  λ _ _ _ f, (Raise (PdfReadError "startxref not found"), f, []).

(** A routine that insists on finding the upload where it was stored. *)
Definition routine_checks_file : routine :=
  λ path _ _ f,
    match f !! path with
    | Some (File "%PDF-3p") => (Ok JNull, f, [])
    | _ => (Raise (OtherException "no such file"), f, [])
    end.

(** A submission with no field besides the upload. *)
Definition bare_submission : Submission :=
  {| filename := "scan.pdf"; payload := "%PDF-3p";
     form := <["rfil" := FormUpload]> ∅ |}.

End Examples.

(** * Properties *)

(** ** Strings *)

Section PyStrFacts.
Import PyStr.

Lemma lower_app (a b : string) : lower (a +:+ b) = lower a +:+ lower b.
Proof. induction a as [|c a IH]; simpl; [done|]. by rewrite IH. Qed.

Lemma string_length_app (a b : string) :
  String.length (a +:+ b) = (String.length a + String.length b)%nat.
Proof. induction a as [|c a IH]; simpl; [done|]. by rewrite IH. Qed.

Lemma substring_all (b : string) : substring 0 (String.length b) b = b.
Proof. induction b as [|c b IH]; simpl; [done|]. by rewrite IH. Qed.

Lemma substring_skip (a b : string) (m : nat) :
  substring (String.length a) m (a +:+ b) = substring 0 m b.
Proof. induction a as [|c a IH]; simpl; [done|]. exact IH. Qed.

Lemma endswith_app (a b : string) : endswith (a +:+ b) b = true.
Proof.
  unfold endswith. rewrite string_length_app.
  replace (String.length a + String.length b - String.length b)%nat
    with (String.length a) by lia.
  rewrite substring_skip, substring_all, String.eqb_refl, andb_true_r.
  apply Nat.leb_le. lia.
Qed.

Lemma lower_pdf_variant (ext : string) :
  ext ∈ pdf_suffix_variants → lower ext = ".pdf".
Proof.
  unfold pdf_suffix_variants. rewrite !elem_of_cons, elem_of_nil.
  intros H. repeat (destruct H as [->|H]; [reflexivity|]). destruct H.
Qed.

End PyStrFacts.

Lemma is_pdf_filename_variant (base ext : string) :
  ext ∈ pdf_suffix_variants → is_pdf_filename (base +:+ ext) = true.
Proof.
  intros H. unfold is_pdf_filename.
  rewrite lower_app, (lower_pdf_variant _ H). apply endswith_app.
Qed.

(** ** Running the handler symbolically *)

Ltac run_handler :=
  cbv beta iota zeta delta
    [post_rfil process_rfil_workflow rfil_read new_PdfReader reader_pages
     page_extract_text list_index uuid_uuid4 os_makedirs open_wb file_write
     os_remove os_guard lift_result get_fs put_fs call_process
     mbind M_bind mret M_ret try_except
     logger_info logger_error logger_traceback emit raise
     fs log trace is_Exception].

Ltac mstep := cbv beta iota zeta.

Ltac tidy_lists := rewrite <- ?app_assoc; cbn [app take]; eauto.

(** A run that ends before the success response does not answer 200. *)
Ltac fail_branch :=
  solve [mstep; intros [= <- <-]; cbn [status_code]; discriminate].

Ltac exn_branch e := solve [destruct (is_PdfReadError e); fail_branch].

(** A run that ends here: its trace is the validation events and a prefix
    of the storage events. *)
Ltac stop_with calls :=
  mstep; intros _; eexists _, _, calls, _;
  split; [reflexivity|];
  split;
  [ cbv beta iota delta [trace]; rewrite <- ?app_assoc;
    cbn [app validation_events]; reflexivity
  | unfold storage_events; cbn [app fmap list_fmap];
    first [ reflexivity | eexists; cbn [app]; reflexivity ] ].

(** The handler rejects what the gate rejects, with the gate's response,
    leaving the file system as it was, after exactly the checks up to the
    failing one. *)
Lemma gate_rejects E P sub w rej :
  validation_gate E sub = inl rej →
  ∃ l, post_rfil E P sub w =
       (rejection_response rej,
        World (fs w) (log w ++ l)
              (trace w ++ take (stage rej) (validation_events sub))).
Proof.
  destruct w as [f l t]. unfold validation_gate. run_handler.
  destruct (is_pdf_filename (filename sub)); cbn [negb].
  2:{ intros [= <-]. eexists.
      cbn [rejection_response stage validation_events]. tidy_lists. }
  destruct (read_error E) as [msg|].
  { intros [= <-]. eexists.
    cbn [rejection_response stage validation_events str_of_exn]. tidy_lists. }
  destruct (PdfReader E (payload sub)) as [r|e].
  2:{ intros [= <-]. cbn [rejection_response stage validation_events].
      unfold exception_response. destruct (is_PdfReadError e); eexists; tidy_lists. }
  destruct (pages r) as [[|p0 ps]|e].
  { intros [= <-]. eexists.
    cbn [length Nat.ltb Nat.leb rejection_response stage validation_events].
    tidy_lists. }
  2:{ intros [= <-]. cbn [rejection_response stage validation_events].
      unfold exception_response. destruct (is_PdfReadError e); eexists; tidy_lists. }
  cbn [length Nat.ltb Nat.leb lookup list_lookup].
  destruct (extract_text p0) as [t0|e]; [discriminate|].
  intros [= <-]. cbn [rejection_response stage validation_events].
  unfold exception_response. destruct (is_PdfReadError e); eexists; tidy_lists.
Qed.

(** The handler goes on to storage when the gate accepts: all five
    validation events, then a prefix of the storage events. *)
Lemma gate_accepts E P sub w ps :
  validation_gate E sub = inr ps →
  ∃ r w' calls rest,
    post_rfil E P sub w = (r, w') ∧
    trace w' = trace w ++ validation_events sub
                 ++ EvUuid :: EvMakedirs (temp_dir_of E) :: rest ∧
    (EvUuid :: EvMakedirs (temp_dir_of E) :: rest) `prefix_of` storage_events E calls.
Proof.
  destruct w as [f l t]. unfold validation_gate. run_handler.
  destruct (is_pdf_filename (filename sub)); cbn [negb]; [|discriminate].
  destruct (read_error E) as [msg|]; [discriminate|].
  destruct (PdfReader E (payload sub)) as [rd|e]; [|discriminate].
  destruct (pages rd) as [[|p0 ps']|e]; [discriminate| |discriminate].
  cbn [length Nat.ltb Nat.leb lookup list_lookup].
  destruct (extract_text p0) as [t0|e]; [|discriminate].
  destruct (makedirs_error E); [stop_with (@nil ocr_call)|].
  destruct (f !! temp_dir_of E) as [[|?]|]; mstep;
    try (stop_with (@nil ocr_call));
    (destruct (open_error E); mstep; try (stop_with (@nil ocr_call)));
    (match goal with
     | |- context [@lookup _ _ (gmap string node) _ ?p ?g] =>
         destruct (g !! p) as [[|?]|]
     end; mstep; try (stop_with (@nil ocr_call)));
    (destruct (write_error E); mstep; try (stop_with (@nil ocr_call)));
    (match goal with
     | |- context [P ?p "bul+eng" true ?g] =>
         destruct (P p "bul+eng" true g) as [[[res|e] f2] calls] eqn:HP
     end; mstep;
     try (destruct (is_PdfReadError e); stop_with calls));
    (destruct (remove_error E); mstep; try (stop_with calls));
    (destruct (f2 !! temp_file_path_of E (uuid4 E)) as [[|d]|];
     stop_with calls).
Qed.

(** A 200 response comes from one path only: the gate accepted, the
    temporary file held the payload when the routine was called, the routine
    returned, and the file was removed. *)
Lemma success_inv E P sub w r w' :
  post_rfil E P sub w = (r, w') → status_code r = 200%Z →
  ∃ ps f1 res f2 calls,
    validation_gate E sub = inr ps ∧
    f1 !! temp_file_path_of E (uuid4 E) = Some (File (payload sub)) ∧
    P (temp_file_path_of E (uuid4 E)) "bul+eng" true f1 = (Ok res, f2, calls) ∧
    content r = JObj (final_data E sub (length ps) res) ∧
    (∃ d, f2 !! temp_file_path_of E (uuid4 E) = Some (File d)) ∧
    fs w' = delete (temp_file_path_of E (uuid4 E)) f2.
Proof.
  destruct w as [f l t]. unfold validation_gate. run_handler.
  destruct (is_pdf_filename (filename sub)); cbn [negb]; [|fail_branch].
  destruct (read_error E) as [msg|]; [fail_branch|].
  destruct (PdfReader E (payload sub)) as [rd|e]; [|exn_branch e].
  destruct (pages rd) as [[|p0 ps]|e]; [fail_branch| |exn_branch e].
  cbn [length Nat.ltb Nat.leb lookup list_lookup].
  destruct (extract_text p0) as [t0|e]; [|exn_branch e].
  destruct (makedirs_error E); [fail_branch|].
  destruct (f !! temp_dir_of E) as [[|?]|]; mstep; try fail_branch;
    (destruct (open_error E); mstep; try fail_branch);
    (match goal with
     | |- context [@lookup _ _ (gmap string node) _ ?p ?g] =>
         destruct (g !! p) as [[|?]|]
     end; mstep; try fail_branch);
    (destruct (write_error E); mstep; try fail_branch);
    (match goal with
     | |- context [P ?p "bul+eng" true ?g] =>
         destruct (P p "bul+eng" true g) as [[[res|e] f2] calls] eqn:HP
     end; mstep; try exn_branch e);
    (destruct (remove_error E); mstep; try fail_branch);
    (destruct (f2 !! temp_file_path_of E (uuid4 E)) as [[|d]|] eqn:Hf2;
     mstep; try fail_branch);
    (intros [= <- <-] _; eexists _, _, res, f2, calls;
     repeat split; [apply lookup_insert_eq | exact HP | by eexists]).
Qed.

(** ** The form fields *)

Lemma collect_field_lookup E k v (acc : gmap string json) name :
  collect_field E k v acc !! name =
    if decide (k = name)
    then match field_entry E k v with Some j => Some j | None => acc !! name end
    else acc !! name.
Proof.
  unfold collect_field, field_entry, decoded.
  destruct v as [s|]; cbn [is_UploadFile]; rewrite ?orb_true_r, ?orb_false_r.
  - destruct (String.eqb k "rfil"); [by case_decide|].
    destruct (json_loads E s); rewrite lookup_insert; by case_decide.
  - by case_decide.
Qed.

Lemma collect_lookup E (f : gmap string form_value) name :
  collect_additional_data E f !! name = f !! name ≫= field_entry E name.
Proof.
  unfold collect_additional_data. revert name.
  apply (map_fold_weak_ind
           (λ (acc : gmap string json) (m : gmap string form_value),
              ∀ name, acc !! name = m !! name ≫= field_entry E name)).
  - intros name. by rewrite !lookup_empty.
  - intros k v m acc Hk IH name.
    rewrite collect_field_lookup, lookup_insert.
    case_decide as Hkn; [subst name|apply IH].
    cbn. destruct (field_entry E k v); [done|].
    by rewrite IH, Hk.
Qed.

Lemma final_data_additional E sub n res name j :
  collect_additional_data E (form sub) !! name = Some j →
  final_data E sub n res !! "additional_data"
    = Some (JObj (collect_additional_data E (form sub))).
Proof.
  intros Hj. unfold final_data.
  rewrite lookup_insert_ne by done.
  case_decide as Hempty.
  - rewrite Hempty, lookup_empty in Hj. discriminate.
  - apply lookup_insert_eq.
Qed.



(** ** The gate and the responses *)





(** ** The events *)

Lemma process_event_not_ocr p lang sv (calls : list ocr_call) :
  EvProcess p lang sv ∉ ev_ocr <$> calls.
Proof. rewrite list_elem_of_fmap. by intros (c & ? & _). Qed.

Lemma remove_event_not_ocr p (calls : list ocr_call) :
  EvRemove p ∉ ev_ocr <$> calls.
Proof. rewrite list_elem_of_fmap. by intros (c & ? & _). Qed.

Lemma process_event_in_storage E calls p lang sv :
  EvProcess p lang sv ∈ storage_events E calls →
  p = temp_file_path_of E (uuid4 E) ∧ lang = "bul+eng" ∧ sv = true.
Proof.
  unfold storage_events. rewrite !elem_of_app, !elem_of_cons, !elem_of_nil.
  intros [H|[H|H]].
  - repeat (destruct H as [H|H]; [try discriminate H|]); [|done].
    by injection H as -> -> ->.
  - by apply process_event_not_ocr in H.
  - by destruct H as [H|[]].
Qed.

(** A run that ends before [os.remove] leaves no [EvRemove] in a trace that
    started empty. *)
Ltac no_remove :=
  solve [ mstep; intros [= <- <-] Hin; exfalso; revert Hin;
          cbv beta iota delta [trace];
          rewrite ?elem_of_app, ?elem_of_cons, ?elem_of_nil; intros Hin;
          repeat match goal with
                 | H : _ ∨ _ |- _ => destruct H
                 | H : False |- _ => destruct H
                 | H : EvRemove _ = _ |- _ => discriminate H
                 | H : EvRemove _ ∈ ev_ocr <$> _ |- _ =>
                     exact (remove_event_not_ocr _ _ H)
                 end ].

(** The run in which [os.remove] raises: the outer handler logs and answers 500. *)
Ltac removal_failed :=
  solve [ mstep; intros [= <- <-] _; cbv beta iota delta [log str_of_exn];
          split; [reflexivity|]; split;
          [ apply elem_of_app; left; apply elem_of_app; right; constructor
          | apply elem_of_app; right; constructor ] ].

(** ** The extraction routine *)

Section ExtractionFacts.
Import Extraction.
Context (G : engine).












End ExtractionFacts.

(** * The claims *)

Import Demo.

(** ** C1: the temporary file after the request *)

(** The success path does remove the file: after a 200 response the
    temporary file of the request is not in the file system. *)
Lemma success_removes_temp_file E P sub w :
  status_code (post_rfil E P sub w).1 = 200%Z →
  fs (post_rfil E P sub w).2 !! temp_file_path_of E (uuid4 E) = None.
Proof.
  intros H200. destruct (post_rfil E P sub w) as [r w'] eqn:Hrun. cbn [fst snd] in *.
  destruct (success_inv _ _ _ _ _ _ Hrun H200) as (?&?&?&?&?&_&_&_&_&_&->).
  apply lookup_delete_eq.
Qed.

(** No exception path removes it: for any accepted submission on a host
    where the directory and the file can be written, a routine that raises
    leaves the temporary file in place, whatever the answer (400 for a
    [PdfReadError], 500 otherwise). *)
Lemma routine_exception_leaves_temp_file E P sub f l t ps e :
  validation_gate E sub = inr ps →
  makedirs_error E = None →
  open_error E = None →
  write_error E = None →
  f !! temp_dir_of E = None →
  f !! temp_file_path_of E (uuid4 E) = None →
  temp_dir_of E ≠ temp_file_path_of E (uuid4 E) →
  (∀ p lang sv g, P p lang sv g = (Raise e, g, [])) →
  status_code (post_rfil E P sub (World f l t)).1 ≠ 200%Z ∧
  fs (post_rfil E P sub (World f l t)).2 !! temp_file_path_of E (uuid4 E)
    = Some (File (payload sub)).
Proof.
  intros Hg Hmk Hop Hwr Hdir Hpath Hne HP. revert Hg.
  unfold validation_gate. run_handler.
  destruct (is_pdf_filename (filename sub)); cbn [negb]; [|discriminate].
  destruct (read_error E) as [msg|]; [discriminate|].
  destruct (PdfReader E (payload sub)) as [rd|e']; [|discriminate].
  destruct (pages rd) as [[|p0 ps']|e']; [discriminate| |discriminate].
  cbn [length Nat.ltb Nat.leb lookup list_lookup].
  destruct (extract_text p0) as [t0|e']; [|discriminate].
  intros _. rewrite Hmk. mstep. rewrite Hdir. mstep. rewrite Hop. mstep.
  rewrite lookup_insert_ne, Hpath by done. mstep. rewrite Hwr. mstep.
  rewrite HP. mstep.
  destruct (is_PdfReadError e); cbn [fst snd status_code];
    (split; [discriminate|apply lookup_insert_eq]).
Qed.

(** C1 does not hold of the handler.  The claim: on every exit path the
    temporary file temp_files/<file_id>.pdf is gone when the request
    completes.  Here a well-formed three-page upload is accepted and stored,
    the extraction routine raises, the handler answers 500 from its
    [except Exception] clause, and the file, absent before the request, is
    still there with the uploaded bytes: [os.remove] is reached on the
    success path only. *)
Theorem temp_file_left_behind_when_extraction_raises :
  let '(r, w') := post_rfil demo_env routine_raises
                    (submission "scan.pdf" "%PDF-3p") demo_world in
  fs demo_world !! demo_temp_path = None ∧
  temp_file_path_of demo_env (uuid4 demo_env) = demo_temp_path ∧
  status_code r = 500%Z ∧
  fs w' !! demo_temp_path = Some (File "%PDF-3p").
Proof. vm_compute. done. Qed.

(** ** C2: input errors are rejected before any storage *)



(** ** C3: which validation failures are 4xx *)




(** ** C4: the order of the checks, and no storage before they pass *)


(** ** C5: the page count of a success response *)

(** The scenario of the specification: three pages, the second a scan,
    language hint "bul+eng". *)
Example scenario_three_pages :
  let '(pr, _, calls) :=
    Extraction.extract demo_engine demo_temp_path "bul+eng" false
      (<[demo_temp_path := File "%PDF-3p"]> ∅) in
  Extraction.method_tag ∘ Extraction.method_used <$> Extraction.page_results pr
    = ["native"; "ocr"; "native"] ∧
  Extraction.status pr = Extraction.Success ∧
  calls = [(2, "bul+eng")].
Proof. vm_compute. done. Qed.



(** ** C6: the extra form fields *)

(** C6.  In a success response, every extra form field (a string field not
    named "rfil") is returned under "additional_data": as the value
    [json.loads] gives when its string parses, as the string itself when it
    does not. *)
Theorem form_fields_returned_decoded E P sub w name s :
  status_code (post_rfil E P sub w).1 = 200%Z →
  form sub !! name = Some (FormStr s) →
  name ≠ "rfil" →
  ∃ d ad,
    content (post_rfil E P sub w).1 = JObj d ∧
    d !! "additional_data" = Some (JObj ad) ∧
    (∀ v, json_loads E s = Some v → ad !! name = Some v) ∧
    (json_loads E s = None → ad !! name = Some (JStr s)).
Proof.
  intros H200 Hf Hname.
  destruct (post_rfil E P sub w) as [r w'] eqn:Hrun. cbn [fst] in *.
  destruct (success_inv _ _ _ _ _ _ Hrun H200) as (ps&f1&res&f2&calls&_&_&_&Hc&_).
  assert (Had : collect_additional_data E (form sub) !! name = Some (decoded E s)).
  { rewrite collect_lookup, Hf. cbn.
    by destruct (String.eqb_spec name "rfil"). }
  eexists _, _. split; [exact Hc|].
  split; [by eapply final_data_additional|].
  unfold decoded in Had. split.
  - intros v Hv. by rewrite Hv in Had.
  - intros Hn. by rewrite Hn in Had.
Qed.

Lemma form_fields_returned_decoded_witness :
  (json_loads demo_env "42" = Some (JNum 42) ∧
   ∃ d ad,
     content (post_rfil demo_env routine_returns
                (submission "scan.pdf" "%PDF-3p") demo_world).1 = JObj d ∧
     d !! "additional_data" = Some (JObj ad) ∧
     (∀ v, json_loads demo_env "42" = Some v → ad !! "copies" = Some v) ∧
     (json_loads demo_env "42" = None → ad !! "copies" = Some (JStr "42"))) ∧
  (json_loads demo_env "urgent, please" = None ∧
   ∃ d ad,
     content (post_rfil demo_env routine_returns
                (submission "scan.pdf" "%PDF-3p") demo_world).1 = JObj d ∧
     d !! "additional_data" = Some (JObj ad) ∧
     (∀ v, json_loads demo_env "urgent, please" = Some v → ad !! "note" = Some v) ∧
     (json_loads demo_env "urgent, please" = None →
      ad !! "note" = Some (JStr "urgent, please"))).
Proof.
  split; (split; [reflexivity|]).
  - apply (form_fields_returned_decoded demo_env routine_returns
             (submission "scan.pdf" "%PDF-3p") demo_world "copies" "42").
    + reflexivity.
    + reflexivity.
    + discriminate.
  - apply (form_fields_returned_decoded demo_env routine_returns
             (submission "scan.pdf" "%PDF-3p") demo_world "note" "urgent, please").
    + reflexivity.
    + reflexivity.
    + discriminate.
Defined.

(** ** C7: the OCR language *)

(** C7 does not hold of the handler.  The claim: the OCR language is the
    one the caller supplied.  Here the caller submits the field
    ocr_language = "eng"; the routine is called once, with "bul+eng", and
    what it returns for that language is what the response carries. *)
Lemma submitted_language_is_not_used :
  let '(r, w') := post_rfil demo_env routine_echo
                    (submission "scan.pdf" "%PDF-3p") demo_world in
  form (submission "scan.pdf" "%PDF-3p") !! "ocr_language" = Some (FormStr "eng") ∧
  status_code r = 200%Z ∧
  trace w' =
    [EvExtensionCheck "scan.pdf"; EvRead; EvPdfReader "%PDF-3p"; EvPageCount;
     EvExtractText 0; EvUuid; EvMakedirs "/srv/app/temp_files";
     EvOpen demo_temp_path; EvWrite demo_temp_path;
     EvProcess demo_temp_path "bul+eng" true; EvRemove demo_temp_path] ∧
  match content r with
  | JObj d => d !! "process_results" = Some (JStr "bul+eng")
  | _ => False
  end.
Proof. vm_compute. done. Qed.

(** C7, amended.  The OCR language is an argument of the extraction
    routine, and the handler fixes it: whatever the submission, every call
    of the routine in a request is on the request's temporary file, with
    language "bul+eng" and save_text on. *)
Theorem ocr_language_is_fixed E P sub w evs p lang sv :
  trace (post_rfil E P sub w).2 = trace w ++ evs →
  EvProcess p lang sv ∈ evs →
  p = temp_file_path_of E (uuid4 E) ∧ lang = "bul+eng" ∧ sv = true.
Proof.
  intros Ht Hin.
  destruct (validation_gate E sub) as [rej|ps] eqn:Hg.
  - destruct (gate_rejects E P sub w rej Hg) as [l Hrun].
    rewrite Hrun in Ht. cbn [snd trace] in Ht.
    apply app_inv_head in Ht. subst evs.
    apply elem_of_take in Hin as (i & Hi & _).
    apply list_elem_of_lookup_2 in Hi. revert Hi.
    unfold validation_events. rewrite !elem_of_cons, elem_of_nil.
    intros H. repeat (destruct H as [H|H]; [discriminate H|]). done.
  - destruct (gate_accepts E P sub w ps Hg)
      as (r0 & w0 & calls & rest & Hrun & Ht' & [k Hk]).
    rewrite Hrun in Ht. cbn [snd] in Ht.
    rewrite Ht' in Ht. apply app_inv_head in Ht. subst evs.
    apply (process_event_in_storage E calls).
    rewrite Hk. apply elem_of_app in Hin as [Hin|Hin]; [|by apply elem_of_app; left].
    revert Hin. unfold validation_events. rewrite !elem_of_cons, elem_of_nil.
    intros H. repeat (destruct H as [H|H]; [discriminate H|]). done.
Qed.

Lemma ocr_language_is_fixed_witness :
  trace (post_rfil demo_env routine_echo
           (submission "scan.pdf" "%PDF-3p") demo_world).2 =
    trace demo_world ++
    [EvExtensionCheck "scan.pdf"; EvRead; EvPdfReader "%PDF-3p"; EvPageCount;
     EvExtractText 0; EvUuid; EvMakedirs "/srv/app/temp_files";
     EvOpen demo_temp_path; EvWrite demo_temp_path;
     EvProcess demo_temp_path "bul+eng" true; EvRemove demo_temp_path] ∧
  demo_temp_path = temp_file_path_of demo_env (uuid4 demo_env) ∧
  "bul+eng" = "bul+eng" ∧ true = true.
Proof.
  assert (Ht : trace (post_rfil demo_env routine_echo
                        (submission "scan.pdf" "%PDF-3p") demo_world).2 =
               trace demo_world ++
               [EvExtensionCheck "scan.pdf"; EvRead; EvPdfReader "%PDF-3p";
                EvPageCount; EvExtractText 0; EvUuid;
                EvMakedirs "/srv/app/temp_files";
                EvOpen demo_temp_path; EvWrite demo_temp_path;
                EvProcess demo_temp_path "bul+eng" true; EvRemove demo_temp_path])
    by reflexivity.
  split; [exact Ht|].
  apply (ocr_language_is_fixed demo_env routine_echo
           (submission "scan.pdf" "%PDF-3p") demo_world _
           demo_temp_path "bul+eng" true Ht).
  repeat constructor.
Defined.

(** ** C8: a removal that fails *)

(** C8 does not hold of the handler.  The claim: when removing the
    temporary file fails after processing has succeeded, the request still
    returns the success response.  Here everything up to [os.remove]
    succeeds (with a host that lets the file be removed the same submission
    is answered 200), [os.remove] raises, and the response is a 500. *)
Lemma failed_removal_discards_the_success_response :
  let '(r, w') := post_rfil demo_env_remove_fails routine_returns
                    (submission "scan.pdf" "%PDF-3p") demo_world in
  status_code (post_rfil demo_env routine_returns
                 (submission "scan.pdf" "%PDF-3p") demo_world).1 = 200%Z ∧
  remove_error demo_env_remove_fails = Some "[Errno 13] Permission denied" ∧
  trace w' =
    [EvExtensionCheck "scan.pdf"; EvRead; EvPdfReader "%PDF-3p"; EvPageCount;
     EvExtractText 0; EvUuid; EvMakedirs "/srv/app/temp_files";
     EvOpen demo_temp_path; EvWrite demo_temp_path;
     EvProcess demo_temp_path "bul+eng" true; EvRemove demo_temp_path] ∧
  status_code r = 500%Z.
Proof. vm_compute. done. Qed.

(** C8, amended.  When [os.remove] is reached (so everything before it
    succeeded) and fails, the failure is logged, with its traceback, and
    the request is answered with the generic 500 response that carries the
    failure's message; the success response is not returned. *)
Theorem failed_removal_is_a_server_error E P sub f l msg :
  remove_error E = Some msg →
  EvRemove (temp_file_path_of E (uuid4 E))
    ∈ trace (post_rfil E P sub (World f l [])).2 →
  (post_rfil E P sub (World f l [])).1 =
    JSONResponse 500 (error_content ("An error occurred: " +:+ msg)) ∧
  LogError ("Error during RFIL processing: " +:+ msg)
    ∈ log (post_rfil E P sub (World f l [])).2 ∧
  LogTraceback (OtherException msg) ∈ log (post_rfil E P sub (World f l [])).2.
Proof.
  intros Hrm.
  destruct (post_rfil E P sub (World f l [])) as [r w'] eqn:Hrun.
  cbn [fst snd]. revert Hrun. run_handler. rewrite Hrm.
  destruct (is_pdf_filename (filename sub)); cbn [negb]; [|no_remove].
  destruct (read_error E) as [msg'|]; [no_remove|].
  destruct (PdfReader E (payload sub)) as [rd|e];
    [|destruct (is_PdfReadError e); no_remove].
  destruct (pages rd) as [[|p0 ps]|e];
    [no_remove| |destruct (is_PdfReadError e); no_remove].
  cbn [length Nat.ltb Nat.leb lookup list_lookup].
  destruct (extract_text p0) as [t0|e];
    [|destruct (is_PdfReadError e); no_remove].
  destruct (makedirs_error E); [no_remove|].
  destruct (f !! temp_dir_of E) as [[|?]|]; mstep; try no_remove;
    (destruct (open_error E); mstep; try no_remove);
    (match goal with
     | |- context [@lookup _ _ (gmap string node) _ ?p ?g] =>
         destruct (g !! p) as [[|?]|]
     end; mstep; try no_remove);
    (destruct (write_error E); mstep; try no_remove);
    (match goal with
     | |- context [P ?p "bul+eng" true ?g] =>
         destruct (P p "bul+eng" true g) as [[[res|e] f2] calls] eqn:HP
     end; mstep; try (destruct (is_PdfReadError e); no_remove));
    removal_failed.
Qed.

Lemma failed_removal_is_a_server_error_witness :
  remove_error demo_env_remove_fails = Some "[Errno 13] Permission denied" ∧
  (post_rfil demo_env_remove_fails routine_returns
     (submission "scan.pdf" "%PDF-3p") (World (fs demo_world) [] [])).1 =
    JSONResponse 500
      (error_content ("An error occurred: " +:+ "[Errno 13] Permission denied")) ∧
  LogError ("Error during RFIL processing: " +:+ "[Errno 13] Permission denied")
    ∈ log (post_rfil demo_env_remove_fails routine_returns
             (submission "scan.pdf" "%PDF-3p") (World (fs demo_world) [] [])).2 ∧
  LogTraceback (OtherException "[Errno 13] Permission denied")
    ∈ log (post_rfil demo_env_remove_fails routine_returns
             (submission "scan.pdf" "%PDF-3p") (World (fs demo_world) [] [])).2.
Proof.
  split; [reflexivity|].
  apply (failed_removal_is_a_server_error demo_env_remove_fails routine_returns
           (submission "scan.pdf" "%PDF-3p") (fs demo_world) []
           "[Errno 13] Permission denied").
  - reflexivity.
  - vm_compute. repeat constructor.
Defined.

(** ** C9: native text or OCR, page by page *)




(** ** C10: the extension check ignores case *)



(** * The rest of the handler *)

Import Examples.

(** ** What leaves the handler *)



(** ** The file-type check, exactly *)

Section PyStrMore.
Import PyStr.

Lemma lower_length s : String.length (lower s) = String.length s.
Proof. induction s as [|c s IH]; simpl; [done|]. by rewrite IH. Qed.

Lemma split_suffix (s : string) (m : nat) :
  m ≤ String.length s →
  ∃ a b, s = a +:+ b ∧ String.length b = m ∧ String.length a = String.length s - m.
Proof.
  induction s as [|c s IH]; simpl; intros Hm.
  - exists "", "". simpl. repeat split; lia.
  - destruct (decide (m = S (String.length s))) as [->|Hne].
    + exists "", (String c s). simpl. repeat split; lia.
    + destruct IH as (a & b & -> & Hb & Ha); [lia|].
      exists (String c a), b. simpl. rewrite string_length_app in *.
      repeat split; lia.
Qed.

Lemma lower_ascii_cases (c : ascii) :
  (lower_ascii c = "."%char → c = "."%char) ∧
  (lower_ascii c = "p"%char → c = "p"%char ∨ c = "P"%char) ∧
  (lower_ascii c = "d"%char → c = "d"%char ∨ c = "D"%char) ∧
  (lower_ascii c = "f"%char → c = "f"%char ∨ c = "F"%char).
Proof.
  destruct c as [[] [] [] [] [] [] [] []]; vm_compute;
    repeat split; intros H; try discriminate H; auto.
Qed.

Lemma lower_is_pdf_suffix (ext : string) :
  lower ext = ".pdf" → ext ∈ pdf_suffix_variants.
Proof.
  destruct ext as [|c0 [|c1 [|c2 [|c3 [|c4 rest]]]]]; try discriminate.
  simpl. intros [= H0 H1 H2 H3].
  apply (lower_ascii_cases c0) in H0 as ->.
  apply (lower_ascii_cases c1) in H1.
  apply (lower_ascii_cases c2) in H2.
  apply (lower_ascii_cases c3) in H3.
  destruct H1 as [-> | ->], H2 as [-> | ->], H3 as [-> | ->];
    unfold pdf_suffix_variants; repeat constructor.
Qed.

Lemma path_join_length a b :
  String.length a + String.length b ≤ String.length (path_join a b).
Proof.
  unfold path_join. destruct (_ || _); rewrite !string_length_app; cbn; lia.
Qed.

End PyStrMore.

(** X2.  The file-type check accepts a name exactly when the name ends in
    one of the eight case variants of ".pdf": nothing else passes (no other
    extension, no name shorter than four characters), and the base name may
    be empty. *)
Theorem pdf_filenames_are_the_names_with_a_pdf_suffix (name : string) :
  is_pdf_filename name = true ↔
  ∃ base ext, name = base +:+ ext ∧ ext ∈ pdf_suffix_variants.
Proof.
  split.
  - unfold is_pdf_filename, PyStr.endswith. rewrite lower_length.
    intros [Hlen Heq]%andb_true_iff.
    apply Nat.leb_le in Hlen. apply String.eqb_eq in Heq.
    destruct (split_suffix name _ Hlen) as (a & b & -> & Hb & Ha).
    exists a, b. split; [done|]. apply lower_is_pdf_suffix.
    rewrite lower_app in Heq. rewrite <- Ha, <- (lower_length a) in Heq.
    rewrite substring_skip in Heq.
    change (String.length ".pdf") with 4 in *.
    rewrite <- Hb, <- (lower_length b) in Heq. by rewrite substring_all in Heq.
  - intros (base & ext & -> & Hext). by apply is_pdf_filename_variant.
Qed.

(** ** The metadata of a success response *)

Lemma collect_empty_iff E (f : gmap string form_value) :
  collect_additional_data E f = ∅ ↔
  ∀ name s, f !! name = Some (FormStr s) → name = "rfil".
Proof.
  rewrite map_empty. split.
  - intros H name s Hs. specialize (H name). rewrite collect_lookup, Hs in H.
    cbn in H. by destruct (String.eqb_spec name "rfil").
  - intros H name. rewrite collect_lookup.
    destruct (f !! name) as [[s|]|] eqn:Hf; cbn; [|done|done].
    by rewrite (H name s Hf).
Qed.

(** X3.  A success response has no "additional_data" key at all (not an
    empty object) exactly when the form has no string field besides "rfil";
    and when the key is there, it never holds an entry for "rfil" or for a
    field that is an uploaded file. *)
Theorem additional_data_only_with_extra_fields E P sub w :
  status_code (post_rfil E P sub w).1 = 200%Z →
  ∃ d, content (post_rfil E P sub w).1 = JObj d ∧
       (d !! "additional_data" = None ↔
        ∀ name s, form sub !! name = Some (FormStr s) → name = "rfil") ∧
       (∀ ad, d !! "additional_data" = Some (JObj ad) →
              ad !! "rfil" = None ∧
              ∀ name, form sub !! name = Some FormUpload → ad !! name = None).
Proof.
  intros H200. destruct (post_rfil E P sub w) as [r w'] eqn:Hrun. cbn [fst] in *.
  destruct (success_inv _ _ _ _ _ _ Hrun H200) as (ps&f1&res&f2&calls&_&_&_&Hc&_).
  eexists. split; [exact Hc|]. unfold final_data.
  rewrite lookup_insert_ne by done. rewrite <- collect_empty_iff.
  case_decide as Hempty.
  - split.
    + split; [done|]. intros _. unfold success_data.
      repeat (rewrite lookup_insert_ne by done). apply lookup_empty.
    + unfold success_data. repeat (rewrite lookup_insert_ne by done).
      by rewrite lookup_empty.
  - rewrite lookup_insert_eq. split; [split; [done|by intros ?]|].
    intros ad [= <-]. split.
    + by rewrite collect_lookup; destruct (form sub !! "rfil") as [[]|].
    + intros name Hname. by rewrite collect_lookup, Hname.
Qed.

Lemma additional_data_only_with_extra_fields_witness :
  status_code (post_rfil demo_env routine_returns bare_submission demo_world).1
    = 200%Z ∧
  ∃ d, content (post_rfil demo_env routine_returns bare_submission demo_world).1
         = JObj d ∧
       (d !! "additional_data" = None ↔
        ∀ name s, form bare_submission !! name = Some (FormStr s) → name = "rfil") ∧
       (∀ ad, d !! "additional_data" = Some (JObj ad) →
              ad !! "rfil" = None ∧
              ∀ name, form bare_submission !! name = Some FormUpload →
                      ad !! name = None).
Proof.
  assert (H : status_code (post_rfil demo_env routine_returns
                             bare_submission demo_world).1 = 200%Z)
    by reflexivity.
  split; [exact H|].
  exact (additional_data_only_with_extra_fields
           demo_env routine_returns bare_submission demo_world H).
Defined.

(** ** The handler and the extraction routine *)

(** X4.  The routine is only ever called on a file system in which the
    temporary file holds the uploaded bytes: two routines that agree on
    such file systems (for the temporary path, "bul+eng" and save_text on)
    give the same response and the same final world. *)
Theorem routine_sees_the_stored_upload E P1 P2 sub w :
  (∀ g, g !! temp_file_path_of E (uuid4 E) = Some (File (payload sub)) →
        P1 (temp_file_path_of E (uuid4 E)) "bul+eng" true g
        = P2 (temp_file_path_of E (uuid4 E)) "bul+eng" true g) →
  post_rfil E P1 sub w = post_rfil E P2 sub w.
Proof.
  intros Hagree. destruct w as [f l t]. run_handler.
  destruct (is_pdf_filename (filename sub)); cbn [negb]; [|reflexivity].
  destruct (read_error E) as [msg|]; [reflexivity|].
  destruct (PdfReader E (payload sub)) as [rd|e]; [|reflexivity].
  destruct (pages rd) as [[|p0 ps]|e]; [reflexivity| |reflexivity].
  cbn [length Nat.ltb Nat.leb lookup list_lookup].
  destruct (extract_text p0) as [t0|e]; [|reflexivity].
  destruct (makedirs_error E); [reflexivity|].
  destruct (f !! temp_dir_of E) as [[|?]|]; mstep; try reflexivity;
    (destruct (open_error E); mstep; try reflexivity);
    (match goal with
     | |- context [@lookup _ _ (gmap string node) _ ?p ?g] =>
         destruct (g !! p) as [[|?]|]
     end; mstep; try reflexivity);
    (destruct (write_error E); mstep; try reflexivity);
    (rewrite Hagree by apply lookup_insert_eq; reflexivity).
Qed.

Lemma routine_sees_the_stored_upload_witness :
  post_rfil demo_env routine_returns (submission "scan.pdf" "%PDF-3p") demo_world
  = post_rfil demo_env routine_checks_file (submission "scan.pdf" "%PDF-3p") demo_world.
Proof.
  apply (routine_sees_the_stored_upload demo_env routine_returns routine_checks_file
           (submission "scan.pdf" "%PDF-3p") demo_world).
  intros g Hg. unfold routine_returns, routine_checks_file.
  change (temp_file_path_of demo_env (uuid4 demo_env)) with demo_temp_path in *.
  change (payload (submission "scan.pdf" "%PDF-3p")) with "%PDF-3p" in Hg.
  rewrite Hg. reflexivity.
Defined.

Ltac not_ok :=
  solve [mstep; cbn [fst snd status_code]; intros; discriminate].

(** X5.  With a routine that leaves the file system alone, a success
    response leaves exactly one trace on disk: the file system afterwards
    is the one before the request with the temp_files directory in place
    and nothing at the temporary path (a file that was already there, under
    the same identifier, is gone too). *)
Theorem success_leaves_only_the_directory E P sub w :
  (∀ g, (P (temp_file_path_of E (uuid4 E)) "bul+eng" true g).1.2 = g) →
  status_code (post_rfil E P sub w).1 = 200%Z →
  fs (post_rfil E P sub w).2 =
    delete (temp_file_path_of E (uuid4 E)) (<[temp_dir_of E := Dir]> (fs w)).
Proof.
  intros Hsame. destruct w as [f l t]. run_handler.
  destruct (is_pdf_filename (filename sub)); cbn [negb]; [|not_ok].
  destruct (read_error E) as [msg|]; [not_ok|].
  destruct (PdfReader E (payload sub)) as [rd|e];
    [|destruct (is_PdfReadError e); not_ok].
  destruct (pages rd) as [[|p0 ps]|e];
    [not_ok| |destruct (is_PdfReadError e); not_ok].
  cbn [length Nat.ltb Nat.leb lookup list_lookup].
  destruct (extract_text p0) as [t0|e];
    [|destruct (is_PdfReadError e); not_ok].
  destruct (makedirs_error E); [not_ok|].
  destruct (f !! temp_dir_of E) as [[|?]|] eqn:Hdir; mstep; try not_ok;
    (destruct (open_error E); mstep; try not_ok);
    (match goal with
     | |- context [@lookup _ _ (gmap string node) _ ?p ?g] =>
         destruct (g !! p) as [[|?]|]
     end; mstep; try not_ok);
    (destruct (write_error E); mstep; try not_ok);
    (match goal with
     | |- context [P ?p "bul+eng" true ?g] =>
         pose proof (Hsame g) as Hg;
         destruct (P p "bul+eng" true g) as [[[res|e] f2] calls] eqn:HP
     end; mstep; try (destruct (is_PdfReadError e); not_ok));
    (destruct (remove_error E); mstep; try not_ok);
    (destruct (f2 !! temp_file_path_of E (uuid4 E)) as [[|d]|] eqn:Hf2;
     mstep; try not_ok);
    (cbn [fst snd] in *; intros _; subst f2;
     rewrite !delete_insert_eq, ?(insert_id f _ _ Hdir); reflexivity).
Qed.

Lemma success_leaves_only_the_directory_witness :
  status_code (post_rfil demo_env routine_returns
                 (submission "scan.pdf" "%PDF-3p") demo_world).1 = 200%Z ∧
  fs (post_rfil demo_env routine_returns
        (submission "scan.pdf" "%PDF-3p") demo_world).2 =
    delete (temp_file_path_of demo_env (uuid4 demo_env))
           (<[temp_dir_of demo_env := Dir]> (fs demo_world)).
Proof.
  assert (H : status_code (post_rfil demo_env routine_returns
                             (submission "scan.pdf" "%PDF-3p") demo_world).1 = 200%Z)
    by reflexivity.
  split; [exact H|].
  apply (success_leaves_only_the_directory demo_env routine_returns
           (submission "scan.pdf" "%PDF-3p") demo_world); [|exact H].
  intros g. reflexivity.
Defined.

(** A run that ends before the routine is called leaves no [EvProcess] in a
    trace that started empty. *)
Ltac no_process :=
  solve [ mstep; intros [= <- <-] Hin; exfalso; revert Hin;
          cbv beta iota delta [trace];
          rewrite ?elem_of_app, ?elem_of_cons, ?elem_of_nil; intros Hin;
          repeat match goal with
                 | H : _ ∨ _ |- _ => destruct H
                 | H : False |- _ => destruct H
                 | H : EvProcess _ _ _ = _ |- _ => discriminate H
                 end ].

(** X6.  The inner [try] also covers the call of the routine: when the
    routine is reached (so the upload passed every check) and raises a
    [PdfReadError], the request is answered 400 "The file is not a valid
    PDF", like a rejected upload. *)
Theorem routine_pdf_error_is_answered_as_invalid_pdf E P sub f l :
  (∀ g, ∃ msg, (P (temp_file_path_of E (uuid4 E)) "bul+eng" true g).1.1
               = Raise (PdfReadError msg)) →
  EvProcess (temp_file_path_of E (uuid4 E)) "bul+eng" true
    ∈ trace (post_rfil E P sub (World f l [])).2 →
  (post_rfil E P sub (World f l [])).1
    = JSONResponse 400 (error_content "The file is not a valid PDF") ∧
  ∃ ps, validation_gate E sub = inr ps.
Proof.
  intros HP.
  destruct (post_rfil E P sub (World f l [])) as [r w'] eqn:Hrun.
  cbn [fst snd]. revert Hrun. unfold validation_gate. run_handler.
  destruct (is_pdf_filename (filename sub)); cbn [negb]; [|no_process].
  destruct (read_error E) as [msg|]; [no_process|].
  destruct (PdfReader E (payload sub)) as [rd|e];
    [|destruct (is_PdfReadError e); no_process].
  destruct (pages rd) as [[|p0 ps]|e];
    [no_process| |destruct (is_PdfReadError e); no_process].
  cbn [length Nat.ltb Nat.leb lookup list_lookup].
  destruct (extract_text p0) as [t0|e];
    [|destruct (is_PdfReadError e); no_process].
  destruct (makedirs_error E); [no_process|].
  destruct (f !! temp_dir_of E) as [[|?]|]; mstep; try no_process;
    (destruct (open_error E); mstep; try no_process);
    (match goal with
     | |- context [@lookup _ _ (gmap string node) _ ?p ?g] =>
         destruct (g !! p) as [[|?]|]
     end; mstep; try no_process);
    (destruct (write_error E); mstep; try no_process);
    (match goal with
     | |- context [P ?p "bul+eng" true ?g] =>
         destruct (HP g) as [msg Hg];
         destruct (P p "bul+eng" true g) as [[r0 f2] calls]
     end; cbn [fst] in Hg; subst r0; mstep; cbn [is_PdfReadError];
     intros [= <- <-] _; split; [reflexivity|by eexists]).
Qed.

Lemma routine_pdf_error_is_answered_as_invalid_pdf_witness :
  EvProcess (temp_file_path_of demo_env (uuid4 demo_env)) "bul+eng" true
    ∈ trace (post_rfil demo_env routine_pdf_error
               (submission "scan.pdf" "%PDF-3p") (World (fs demo_world) [] [])).2 ∧
  (post_rfil demo_env routine_pdf_error
     (submission "scan.pdf" "%PDF-3p") (World (fs demo_world) [] [])).1
    = JSONResponse 400 (error_content "The file is not a valid PDF") ∧
  ∃ ps, validation_gate demo_env (submission "scan.pdf" "%PDF-3p") = inr ps.
Proof.
  assert (H : EvProcess (temp_file_path_of demo_env (uuid4 demo_env)) "bul+eng" true
                ∈ trace (post_rfil demo_env routine_pdf_error
                           (submission "scan.pdf" "%PDF-3p")
                           (World (fs demo_world) [] [])).2)
    by (vm_compute; repeat constructor).
  split; [exact H|].
  apply (routine_pdf_error_is_answered_as_invalid_pdf demo_env routine_pdf_error
           (submission "scan.pdf" "%PDF-3p") (fs demo_world) []); [|exact H].
  intros g. eexists. reflexivity.
Defined.

Ltac storage_failed :=
  solve [ mstep; cbn [is_PdfReadError]; mstep; intros _ [= <- <-] _; reflexivity ].

Ltac routine_reached :=
  solve [ mstep; cbn [is_PdfReadError]; mstep; intros _ [= <- <-] H; exfalso;
          eapply H; cbv beta iota delta [trace];
          rewrite <- ?app_assoc; cbn [app];
          repeat first [ apply list_elem_of_here | apply list_elem_of_further ] ].

(** X7.  When the upload passes every check but the routine is never
    called, storing the upload has failed (makedirs, open or write), and the
    request is answered 500: a storage failure is never reported as an
    input error. *)
Theorem storage_failure_is_a_server_error E P sub f l ps :
  validation_gate E sub = inr ps →
  (∀ p lang sv, EvProcess p lang sv ∉ trace (post_rfil E P sub (World f l [])).2) →
  status_code (post_rfil E P sub (World f l [])).1 = 500%Z.
Proof.
  destruct (post_rfil E P sub (World f l [])) as [r w'] eqn:Hrun.
  cbn [fst snd]. revert Hrun. unfold validation_gate. run_handler.
  destruct (is_pdf_filename (filename sub)); cbn [negb]; [|discriminate].
  destruct (read_error E) as [msg|]; [discriminate|].
  destruct (PdfReader E (payload sub)) as [rd|e]; [|discriminate].
  destruct (pages rd) as [[|p0 ps']|e]; [discriminate| |discriminate].
  cbn [length Nat.ltb Nat.leb lookup list_lookup].
  destruct (extract_text p0) as [t0|e]; [|discriminate].
  intros Hrun Hg. revert Hg Hrun.
  destruct (makedirs_error E); [storage_failed|].
  destruct (f !! temp_dir_of E) as [[|?]|]; mstep; try storage_failed;
    (destruct (open_error E); mstep; try storage_failed);
    (match goal with
     | |- context [@lookup _ _ (gmap string node) _ ?p ?g] =>
         destruct (g !! p) as [[|?]|]
     end; mstep; try storage_failed);
    (destruct (write_error E); mstep; try storage_failed);
    (match goal with
     | |- context [P ?p "bul+eng" true ?g] =>
         destruct (P p "bul+eng" true g) as [[[res|e] f2] calls] eqn:HP
     end; mstep; try (destruct (is_PdfReadError e); routine_reached));
    (destruct (remove_error E); mstep; try routine_reached);
    (destruct (f2 !! temp_file_path_of E (uuid4 E)) as [[|d]|]; routine_reached).
Qed.

Lemma storage_failure_is_a_server_error_witness :
  validation_gate demo_env_no_directory (submission "scan.pdf" "%PDF-3p")
    = inr [page_ok "one"; page_ok ""; page_ok "three"] ∧
  status_code (post_rfil demo_env_no_directory routine_returns
                 (submission "scan.pdf" "%PDF-3p") (World (fs demo_world) [] [])).1
    = 500%Z.
Proof.
  assert (Hg : validation_gate demo_env_no_directory (submission "scan.pdf" "%PDF-3p")
               = inr [page_ok "one"; page_ok ""; page_ok "three"]) by reflexivity.
  split; [exact Hg|].
  apply (storage_failure_is_a_server_error demo_env_no_directory routine_returns
           (submission "scan.pdf" "%PDF-3p") (fs demo_world) [] _ Hg).
  intros p lang sv H.
  assert (Ht : trace (post_rfil demo_env_no_directory routine_returns
                        (submission "scan.pdf" "%PDF-3p")
                        (World (fs demo_world) [] [])).2
               = [EvExtensionCheck "scan.pdf"; EvRead; EvPdfReader "%PDF-3p";
                  EvPageCount; EvExtractText 0; EvUuid;
                  EvMakedirs "/srv/app/temp_files"]) by reflexivity.
  rewrite Ht in H.
  repeat (apply elem_of_cons in H as [H|H]; [discriminate H|]).
  by apply elem_of_nil in H.
Defined.

(** ** The log *)





(** * The workflow store *)

Ltac run_db :=
  cbv beta iota zeta delta
    [Db.get_all_workflows Db.get_workflow_by_id Db.update_workflow
     Db.create_workflow Db.delete_workflow Db.create_workflow_submission
     Db.execute_select_workflows Db.execute_select_forms
     Db.scalar_one_or_none
     Db.db_add Db.db_commit Db.db_rollback Db.db_guard Db.db_call_event
     Db.db_get_store Db.db_put_store Db.db_try Db.db_raise Db.db_lift
     mbind Db.DB_bind mret Db.DB_ret Db.store Db.calls].

Ltac dstep := cbv beta iota zeta.

Section DbFacts.
Import Db.

Lemma error_is_not_success msg msg' : error_dict msg ≠ success_dict msg'.
Proof.
  unfold error_dict, success_dict. intros H.
  pose proof (f_equal (λ j, match j with
                            | JObj m => m !! "status"
                            | _ => None
                            end) H) as H'.
  cbv beta iota in H'. rewrite !lookup_insert_eq in H'. discriminate H'.
Qed.

Lemma filter_nil_iff {A} (cond : A → bool) (rows : list A) :
  List.filter cond rows = [] ↔ ∀ w, w ∈ rows → cond w = false.
Proof.
  induction rows as [|w rows IH]; cbn.
  - split; [|done]. intros _ w Hw. by apply elem_of_nil in Hw.
  - destruct (cond w) eqn:Hc.
    + split; [done|]. intros H. specialize (H w (list_elem_of_here _ _)). congruence.
    + rewrite IH. split.
      * intros H w' [->|Hw']%elem_of_cons; auto.
      * intros H w' Hw'. apply H. by apply elem_of_cons; right.
Qed.

Lemma filter_map_replace {A} (is_it : A → bool) (w' : A) rows :
  is_it w' = true →
  List.filter is_it (map (λ w, if is_it w then w' else w) rows)
  = map (λ _, w') (List.filter is_it rows).
Proof.
  intros Hw'. induction rows as [|w rows IH]; [done|]. cbn [map List.filter].
  destruct (is_it w) eqn:Hw.
  - rewrite Hw'. cbn [map]. by rewrite IH.
  - by rewrite Hw.
Qed.

Lemma map_replace_twice {A} (is_it : A → bool) (w' : A) rows :
  is_it w' = true →
  map (λ w, if is_it w then w' else w) (map (λ w, if is_it w then w' else w) rows)
  = map (λ w, if is_it w then w' else w) rows.
Proof.
  intros Hw'. induction rows as [|w rows IH]; [done|]. cbn [map].
  rewrite IH. f_equal. destruct (is_it w) eqn:Hw; by rewrite ?Hw', ?Hw.
Qed.

Lemma workflow_list_entry_id w e wid :
  workflow_list_entry w = Ok e → entry_has_id wid e = sql_eq_str wid (id w).
Proof.
  unfold workflow_list_entry.
  destruct (isoformat (created_at w)); [|done].
  destruct (isoformat (updated_at w)); [|done].
  intros [= <-]. cbn [entry_has_id]. by rewrite lookup_insert_eq.
Qed.

Lemma workflow_list_cons w rows :
  workflow_list (w :: rows) =
    match workflow_list_entry w with
    | Raise e => Raise e
    | Ok entry => match workflow_list rows with
                  | Raise e => Raise e
                  | Ok entries => Ok (entry :: entries)
                  end
    end.
Proof. reflexivity. Qed.

Lemma workflow_list_app rows rows' l l' :
  workflow_list rows = Ok l → workflow_list rows' = Ok l' →
  workflow_list (rows ++ rows') = Ok (l ++ l').
Proof.
  revert l. induction rows as [|w rows IH]; intros l.
  - intros [= <-]. done.
  - rewrite <- app_comm_cons, !workflow_list_cons.
    destruct (workflow_list_entry w) as [e|]; [|done].
    destruct (workflow_list rows) as [es|]; [|done].
    intros [= <-] H'. by rewrite (IH es eq_refl H').
Qed.

Lemma listing_after_delete wid w0 rows l :
  workflow_list (List.filter visible rows) = Ok l →
  workflow_list
    (List.filter visible
       (map (λ w, if sql_eq_str wid (id w) then mark_deleted w0 else w) rows))
  = Ok (List.filter (λ e, negb (entry_has_id wid e)) l).
Proof.
  revert l. induction rows as [|w rows IH]; intros l; cbn [List.filter map].
  - by intros [= <-].
  - destruct (sql_eq_str wid (id w)) eqn:Hid.
    + change (visible (mark_deleted w0)) with false.
      destruct (visible w); [|apply IH].
      rewrite workflow_list_cons.
      destruct (workflow_list_entry w) as [e|] eqn:He; [|done].
      destruct (workflow_list (List.filter visible rows)) as [es|]; [|done].
      intros [= <-]. cbn [List.filter].
      rewrite (workflow_list_entry_id _ _ wid He), Hid. cbn [negb]. by apply IH.
    + destruct (visible w); [|apply IH].
      rewrite !workflow_list_cons.
      destruct (workflow_list_entry w) as [e|] eqn:He; [|done].
      destruct (workflow_list (List.filter visible rows)) as [es|]; [|done].
      intros [= <-]. cbn [List.filter].
      rewrite (workflow_list_entry_id _ _ wid He), Hid. cbn [negb].
      by rewrite (IH es eq_refl).
Qed.

Lemma workflow_list_poisoned rows w :
  w ∈ rows → (created_at w = None ∨ updated_at w = None) →
  workflow_list rows =
    Raise (OtherException "'NoneType' object has no attribute 'isoformat'").
Proof.
  intros Hin Hnone. induction rows as [|w' rows IH]; [by apply elem_of_nil in Hin|].
  rewrite workflow_list_cons.
  assert (Hbad : ∀ x, (created_at x = None ∨ updated_at x = None) →
                      workflow_list_entry x =
                        Raise (OtherException
                                 "'NoneType' object has no attribute 'isoformat'")).
  { intros x [H|H]; unfold workflow_list_entry; rewrite H; cbn [isoformat]; [done|].
    by destruct (created_at x). }
  apply elem_of_cons in Hin as [<-|Hin].
  - by rewrite (Hbad w Hnone).
  - destruct (workflow_list_entry w') as [e|e] eqn:He.
    + by rewrite (IH Hin).
    + unfold workflow_list_entry in He.
      destruct (created_at w'); cbn [isoformat] in He; [|by injection He as <-].
      destruct (updated_at w'); cbn [isoformat] in He; [done|by injection He as <-].
Qed.

Lemma get_all_workflows_ok F s l :
  (get_all_workflows F s).1 = Ok (JArr l) ↔
  execute_error F = None ∧
  workflow_list (List.filter visible (workflow_structure (store s))) = Ok l.
Proof.
  destruct s as [d c]. run_db.
  destruct (execute_error F); dstep; cbn [fst].
  { unfold error_dict. split; [done|]. by intros [? _]. }
  fold visible.
  destruct (workflow_list _) as [l'|e]; dstep; cbn [fst].
  - split; [by intros [= ->]|]. by intros [_ [= ->]].
  - unfold error_dict. split; [done|]. by intros [_ ?].
Qed.

End DbFacts.

Ltac not_success :=
  solve [ cbn [fst]; intros [= H];
          first [ by apply error_is_not_success in H | discriminate H ] ].

Ltac db_same := solve [ dstep; cbn [fst snd Db.store]; right; reflexivity ].

Ltac db_committed :=
  solve [ dstep; cbn [fst snd Db.store Db.calls]; left; split; [reflexivity|];
          eexists; reflexivity ].

Ltac db_rolled_back F := destruct (Db.rollback_error F); db_same.

Ltac db_returns := solve [ dstep; left; by eexists ].

Ltac db_rollback_raises F :=
  solve [ destruct (Db.rollback_error F) eqn:?; dstep;
          [ right; eexists; (split; [reflexivity|]); split; reflexivity
          | left; by eexists ] ].

Section DbProperties.
Import Db.

Lemma delete_success_inv F wid s :
  (delete_workflow F wid s).1 = Ok (success_dict "Workflow deleted successfully") →
  ∃ w, List.filter (λ w, sql_eq_str wid (id w)) (workflow_structure (store s)) = [w] ∧
       store (delete_workflow F wid s).2 = with_row wid (mark_deleted w) (store s).
Proof.
  destruct s as [d c]. run_db.
  destruct (execute_error F); dstep.
  { destruct (rollback_error F); not_success. }
  destruct (List.filter _ _) as [|w [|w' rows]] eqn:Hf; dstep.
  - unfold not_found. not_success.
  - destruct (commit_error F); dstep.
    + destruct (rollback_error F); not_success.
    + intros _. by exists w.
  - destruct (rollback_error F); not_success.
Qed.

Lemma create_success_inv F D data s :
  (create_workflow F D data s).1 = Ok (success_dict "Workflow created successfully") →
  workflow_structure (store (create_workflow F D data s).2)
    = workflow_structure (store s) ++ [new_workflow D data].
Proof.
  destruct s as [d c]. run_db.
  destruct (commit_error F); dstep.
  - destruct (rollback_error F); not_success.
  - done.
Qed.

Lemma new_workflow_entry D data c u :
  default_created_at D = Some c → default_updated_at D = Some u →
  ∃ m, workflow_list_entry (new_workflow D data) = Ok (JObj m) ∧
       (∀ k, k ∈ copied_keys → m !! k = Some (dict_get data k)) ∧
       m !! "version" = Some (dict_get_default data "version" (JNum 1)) ∧
       m !! "isPublished" = Some (dict_get_default data "isPublished" (JBool false)) ∧
       m !! "createdAt" = Some (JStr c) ∧
       m !! "updatedAt" = Some (JStr u).
Proof.
  intros Hc Hu. unfold workflow_list_entry, new_workflow. cbn [created_at updated_at].
  rewrite Hc, Hu. cbn [isoformat]. eexists. split; [reflexivity|].
  cbn [id name description status fields api_config category version is_published
       created_by].
  split.
  - intros k Hk. unfold copied_keys in Hk.
    rewrite !elem_of_cons, elem_of_nil in Hk.
    repeat (destruct Hk as [->|Hk];
            [repeat (rewrite lookup_insert_ne by done); apply lookup_insert_eq|]).
    destruct Hk.
  - repeat split; repeat (rewrite lookup_insert_ne by done); apply lookup_insert_eq.
Qed.

(** ** Reading *)

(** X9.  [get_all_workflows] and [get_workflow_by_id] never raise and never
    write: whatever fails, they return a value after a single query, with
    no commit, no rollback, and the store as it was. *)
Theorem reads_are_read_only F wid s :
  (∃ j, get_all_workflows F s = (Ok j, Session (store s) (calls s ++ [CallExecute]))) ∧
  (∃ j, get_workflow_by_id F wid s = (Ok j, Session (store s) (calls s ++ [CallExecute]))).
Proof.
  destruct s as [d c]. split; run_db.
  - destruct (execute_error F); dstep; [by eexists|].
    destruct (workflow_list _); by eexists.
  - destruct (execute_error F); dstep; [by eexists|].
    destruct (List.filter _ _) as [|w [|w' rows]]; by eexists.
Qed.

(** X10.  One visible workflow without a creation or update timestamp
    makes the whole listing fail: [get_all_workflows] returns the error
    dictionary of the [AttributeError], not the other workflows. *)
Theorem one_row_without_timestamp_fails_the_listing F s w :
  execute_error F = None →
  w ∈ workflow_structure (store s) →
  is_deleted w = JBool false →
  created_at w = None ∨ updated_at w = None →
  (get_all_workflows F s).1 =
    Ok (error_dict "'NoneType' object has no attribute 'isoformat'").
Proof.
  intros He Hin Hvis Hnone. destruct s as [d c]. cbn [store] in Hin. run_db.
  rewrite He. dstep. fold visible.
  rewrite (workflow_list_poisoned _ w); [done| |done].
  apply list_elem_of_In, filter_In. split; [by apply list_elem_of_In|].
  unfold visible. by rewrite Hvis.
Qed.

Lemma one_row_without_timestamp_fails_the_listing_witness :
  (get_all_workflows no_faults poisoned_session).1 =
    Ok (error_dict "'NoneType' object has no attribute 'isoformat'").
Proof.
  apply (one_row_without_timestamp_fails_the_listing
           no_faults poisoned_session row_without_timestamps).
  - reflexivity.
  - repeat constructor.
  - reflexivity.
  - left. reflexivity.
Defined.

(** ** Writing *)

(** X11.  An id that no row has changes nothing: [update_workflow],
    [delete_workflow] and [get_workflow_by_id] return the error dictionary
    "Workflow with id ... not found" after the query alone, without commit
    or rollback, and leave the store as it was. *)
Theorem unknown_id_changes_nothing F assign wid data s :
  execute_error F = None →
  (∀ w, w ∈ workflow_structure (store s) → sql_eq_str wid (id w) = false) →
  (∀ w, w ∈ workflow_form_structure (store s) → sql_eq_str wid (form_id w) = false) →
  update_workflow F assign wid data s =
    (Ok (not_found wid), Session (store s) (calls s ++ [CallExecute])) ∧
  delete_workflow F wid s =
    (Ok (not_found wid), Session (store s) (calls s ++ [CallExecute])) ∧
  get_workflow_by_id F wid s =
    (Ok (not_found wid), Session (store s) (calls s ++ [CallExecute])).
Proof.
  intros He Hnone Hnone'.
  apply (filter_nil_iff (λ w, sql_eq_str wid (id w))) in Hnone.
  apply (filter_nil_iff (λ w, sql_eq_str wid (form_id w))) in Hnone'.
  destruct s as [d c]. cbn [store] in Hnone, Hnone'.
  repeat split; run_db; rewrite He; dstep; by rewrite ?Hnone, ?Hnone'.
Qed.

Lemma unknown_id_changes_nothing_witness :
  update_workflow no_faults assign_name "wf-7" rename_data demo_session =
    (Ok (not_found "wf-7"),
     Session (store demo_session) (calls demo_session ++ [CallExecute])) ∧
  delete_workflow no_faults "wf-7" demo_session =
    (Ok (not_found "wf-7"),
     Session (store demo_session) (calls demo_session ++ [CallExecute])) ∧
  get_workflow_by_id no_faults "wf-7" demo_session =
    (Ok (not_found "wf-7"),
     Session (store demo_session) (calls demo_session ++ [CallExecute])).
Proof.
  apply (unknown_id_changes_nothing no_faults assign_name "wf-7" rename_data
           demo_session).
  - reflexivity.
  - intros w Hw. cbn in Hw.
    repeat (apply elem_of_cons in Hw as [->|Hw]; [reflexivity|]).
    by apply elem_of_nil in Hw.
  - intros w Hw. cbn in Hw. by apply elem_of_nil in Hw.
Defined.

(** X12.  The four writing functions change the committed store only when
    they answer success, and then a commit was their last call: on every
    other path (not found, an exception before or in the commit, a failing
    rollback) the store is as it was. *)
Theorem store_changes_only_on_success F assign D wid data s :
  committed_or_unchanged "Workflow updated successfully" s
    (update_workflow F assign wid data s) ∧
  committed_or_unchanged "Workflow created successfully" s
    (create_workflow F D data s) ∧
  committed_or_unchanged "Workflow deleted successfully" s
    (delete_workflow F wid s) ∧
  committed_or_unchanged "Workflow submission created successfully" s
    (create_workflow_submission F data s).
Proof.
  destruct s as [d c]. unfold committed_or_unchanged. repeat split; run_db.
  - destruct (execute_error F); dstep; [db_rolled_back F|].
    destruct (List.filter _ _) as [|w [|w' rows]]; dstep;
      [db_same| |db_rolled_back F].
    destruct (assign w data); dstep; [|db_rolled_back F].
    destruct (commit_error F); dstep; [db_rolled_back F|db_committed].
  - destruct (commit_error F); dstep; [db_rolled_back F|db_committed].
  - destruct (execute_error F); dstep; [db_rolled_back F|].
    destruct (List.filter _ _) as [|w [|w' rows]]; dstep;
      [db_same| |db_rolled_back F].
    destruct (commit_error F); dstep; [db_rolled_back F|db_committed].
  - destruct (commit_error F); dstep; [db_rolled_back F|db_committed].
Qed.

(** X13.  The writing functions catch every exception of their body: one
    of them raises only when the rollback in its [except] clause raises,
    and then what the caller sees is the rollback's exception, with the
    store unchanged. *)
Theorem exception_escapes_only_from_rollback F assign D wid data s :
  returns_or_rollback_raised F s (update_workflow F assign wid data s) ∧
  returns_or_rollback_raised F s (create_workflow F D data s) ∧
  returns_or_rollback_raised F s (delete_workflow F wid s) ∧
  returns_or_rollback_raised F s (create_workflow_submission F data s).
Proof.
  destruct s as [d c]. unfold returns_or_rollback_raised. repeat split; run_db.
  - destruct (execute_error F); dstep; [db_rollback_raises F|].
    destruct (List.filter _ _) as [|w [|w' rows]]; dstep;
      [db_returns| |db_rollback_raises F].
    destruct (assign w data); dstep; [|db_rollback_raises F].
    destruct (commit_error F); dstep; [db_rollback_raises F|db_returns].
  - destruct (commit_error F); dstep; [db_rollback_raises F|db_returns].
  - destruct (execute_error F); dstep; [db_rollback_raises F|].
    destruct (List.filter _ _) as [|w [|w' rows]]; dstep;
      [db_returns| |db_rollback_raises F].
    destruct (commit_error F); dstep; [db_rollback_raises F|db_returns].
  - destruct (commit_error F); dstep; [db_rollback_raises F|db_returns].
Qed.

(** ** Deleting *)

(** X14.  [delete_workflow] is a soft delete: after it answers success the
    listing of [get_all_workflows] is the listing before without the
    entries of that id, every other entry as it was, and no row has left
    the table. *)
Theorem deleted_workflow_is_no_longer_listed F F' wid s l :
  (delete_workflow F wid s).1 = Ok (success_dict "Workflow deleted successfully") →
  (get_all_workflows F' s).1 = Ok (JArr l) →
  ∃ l', (get_all_workflows F' (delete_workflow F wid s).2).1 = Ok (JArr l') ∧
        l' ≡ₚ List.filter (λ e, negb (entry_has_id wid e)) l ∧
        length (workflow_structure (store (delete_workflow F wid s).2))
          = length (workflow_structure (store s)).
Proof.
  intros Hdel Hlist.
  destruct (delete_success_inv _ _ _ Hdel) as (w & Hw & Hstore).
  apply get_all_workflows_ok in Hlist as [He Hl].
  eexists. split; [|split; [reflexivity|]].
  - apply get_all_workflows_ok. split; [done|].
    rewrite Hstore. cbn [with_row workflow_structure].
    by apply listing_after_delete.
  - rewrite Hstore. cbn [with_row workflow_structure]. by rewrite length_map.
Qed.

Lemma deleted_workflow_is_no_longer_listed_witness :
  (get_all_workflows no_faults demo_session).1 = Ok (JArr demo_listing) ∧
  length demo_listing = 2 ∧
  ∃ l', (get_all_workflows no_faults
           (delete_workflow no_faults "wf-2" demo_session).2).1 = Ok (JArr l') ∧
        l' ≡ₚ List.filter (λ e, negb (entry_has_id "wf-2" e)) demo_listing ∧
        length (workflow_structure
                  (store (delete_workflow no_faults "wf-2" demo_session).2))
          = length (workflow_structure (store demo_session)).
Proof.
  assert (Hl : (get_all_workflows no_faults demo_session).1 = Ok (JArr demo_listing))
    by reflexivity.
  split; [exact Hl|]. split; [reflexivity|].
  apply (deleted_workflow_is_no_longer_listed no_faults no_faults "wf-2"
           demo_session demo_listing); [reflexivity|exact Hl].
Defined.

(** X15.  Deleting is repeatable: [delete_workflow] does not look at
    [is_deleted], so deleting a workflow that is already deleted answers
    success again, commits again, and leaves the store as the first delete
    left it. *)
Theorem delete_again_succeeds_and_changes_nothing F F' wid s :
  (delete_workflow F wid s).1 = Ok (success_dict "Workflow deleted successfully") →
  execute_error F' = None →
  commit_error F' = None →
  delete_workflow F' wid (delete_workflow F wid s).2 =
    (Ok (success_dict "Workflow deleted successfully"),
     Session (store (delete_workflow F wid s).2)
             (calls (delete_workflow F wid s).2 ++ [CallExecute; CallCommit])).
Proof.
  intros Hdel He Hc.
  destruct (delete_success_inv _ _ _ Hdel) as (w & Hw & Hstore).
  destruct (delete_workflow F wid s) as [r [d' c']]. cbn [snd store calls] in *.
  subst d'. destruct s as [d c]. cbn [store] in *. run_db.
  rewrite He. dstep. cbn [with_row workflow_structure].
  assert (Hid : sql_eq_str wid (id (mark_deleted w)) = true).
  { assert (Hin : In w (List.filter (λ w, sql_eq_str wid (id w))
                          (workflow_structure d)))
      by (rewrite Hw; by left).
    by apply filter_In in Hin as [_ Hin]. }
  rewrite (filter_map_replace (λ w, sql_eq_str wid (id w)) _ _ Hid), Hw.
  cbn [map]. dstep. rewrite Hc. dstep.
  change (mark_deleted (mark_deleted w)) with (mark_deleted w).
  rewrite <- app_assoc. cbn [app].
  unfold with_row. cbn [workflow_structure workflow_form_structure workflow_submission].
  by rewrite (map_replace_twice (λ w, sql_eq_str wid (id w)) _ _ Hid).
Qed.

Lemma delete_again_succeeds_and_changes_nothing_witness :
  (delete_workflow no_faults "wf-2" demo_session).1
    = Ok (success_dict "Workflow deleted successfully") ∧
  delete_workflow no_faults "wf-2" (delete_workflow no_faults "wf-2" demo_session).2 =
    (Ok (success_dict "Workflow deleted successfully"),
     Session (store (delete_workflow no_faults "wf-2" demo_session).2)
             (calls (delete_workflow no_faults "wf-2" demo_session).2
                ++ [CallExecute; CallCommit])).
Proof.
  assert (H : (delete_workflow no_faults "wf-2" demo_session).1
              = Ok (success_dict "Workflow deleted successfully")) by reflexivity.
  split; [exact H|].
  apply (delete_again_succeeds_and_changes_nothing no_faults no_faults "wf-2"
           demo_session H); reflexivity.
Defined.

(** ** Creating *)

(** X16.  What [create_workflow] stores is what [get_all_workflows] gives
    back: after a successful create (on a table whose new rows are not
    deleted and get both timestamps) the listing is the listing before
    plus one entry, which holds under "id", "name", "description",
    "status", "fields", "apiConfig", "category" and "createdBy" the values
    sent under these keys (null for a missing key), under "version" the
    value sent or 1 when the key is absent, and under "isPublished" the
    value sent or false when the key is absent.  A key sent with an
    explicit null stays null. *)
Theorem created_workflow_is_listed F F' D data s l c u :
  (create_workflow F D data s).1 = Ok (success_dict "Workflow created successfully") →
  default_is_deleted D = JBool false →
  default_created_at D = Some c →
  default_updated_at D = Some u →
  (get_all_workflows F' s).1 = Ok (JArr l) →
  ∃ l' m,
    (get_all_workflows F' (create_workflow F D data s).2).1 = Ok (JArr l') ∧
    l' ≡ₚ JObj m :: l ∧
    (∀ k, k ∈ copied_keys → m !! k = Some (default JNull (data !! k))) ∧
    m !! "version" = Some (default (JNum 1) (data !! "version")) ∧
    m !! "isPublished" = Some (default (JBool false) (data !! "isPublished")) ∧
    m !! "createdAt" = Some (JStr c) ∧
    m !! "updatedAt" = Some (JStr u).
Proof.
  intros Hcr Hdel Hc Hu Hlist.
  pose proof (create_success_inv _ _ _ _ Hcr) as Hstore.
  apply get_all_workflows_ok in Hlist as [He Hl].
  destruct (new_workflow_entry D data c u Hc Hu) as (m & Hm & Hkeys).
  exists (l ++ [JObj m]), m. split; [|split; [|exact Hkeys]].
  - apply get_all_workflows_ok. split; [done|].
    rewrite Hstore, List.filter_app. cbn [List.filter].
    assert (Hvis : visible (new_workflow D data) = true)
      by (unfold visible; cbn [is_deleted new_workflow]; by rewrite Hdel).
    rewrite Hvis. apply workflow_list_app; [done|].
    rewrite workflow_list_cons, Hm. done.
  - by rewrite Permutation_app_comm.
Qed.

Lemma created_workflow_is_listed_witness :
  (create_workflow no_faults demo_defaults new_data demo_session).1
    = Ok (success_dict "Workflow created successfully") ∧
  new_data !! "version" = Some JNull ∧
  new_data !! "isPublished" = None ∧
  ∃ l' m,
    (get_all_workflows no_faults
       (create_workflow no_faults demo_defaults new_data demo_session).2).1
      = Ok (JArr l') ∧
    l' ≡ₚ JObj m :: demo_listing ∧
    (∀ k, k ∈ copied_keys → m !! k = Some (default JNull (new_data !! k))) ∧
    m !! "version" = Some (default (JNum 1) (new_data !! "version")) ∧
    m !! "isPublished" = Some (default (JBool false) (new_data !! "isPublished")) ∧
    m !! "createdAt" = Some (JStr "2025-03-01T08:00:00") ∧
    m !! "updatedAt" = Some (JStr "2025-03-01T08:00:00").
Proof.
  assert (H : (create_workflow no_faults demo_defaults new_data demo_session).1
              = Ok (success_dict "Workflow created successfully")) by reflexivity.
  split; [exact H|]. split; [reflexivity|]. split; [reflexivity|].
  apply (created_workflow_is_listed no_faults no_faults demo_defaults new_data
           demo_session demo_listing
           "2025-03-01T08:00:00" "2025-03-01T08:00:00" H); reflexivity.
Defined.

(** ** Updating *)

(** X17.  [update_workflow] looks the workflow up by id alone, deleted or
    not: when exactly one row has the id and nothing fails, it answers
    success after query, add and commit, that row becomes what
    [assign_new_values] made of it, and every other row stays in place
    unchanged. *)
Theorem update_replaces_the_one_row F assign wid data s w w' :
  execute_error F = None →
  commit_error F = None →
  List.filter (λ x, sql_eq_str wid (id x)) (workflow_structure (store s)) = [w] →
  assign w data = Ok w' →
  (update_workflow F assign wid data s).1
    = Ok (success_dict "Workflow updated successfully") ∧
  calls (update_workflow F assign wid data s).2
    = calls s ++ [CallExecute; CallAdd; CallCommit] ∧
  length (workflow_structure (store (update_workflow F assign wid data s).2))
    = length (workflow_structure (store s)) ∧
  ∀ i x, workflow_structure (store s) !! i = Some x →
         workflow_structure (store (update_workflow F assign wid data s).2) !! i
           = Some (if sql_eq_str wid (id x) then w' else x).
Proof.
  intros He Hc Hw Ha. destruct s as [d c]. cbn [store calls] in *. run_db.
  rewrite He. dstep. rewrite Hw. dstep. rewrite Ha. dstep. rewrite Hc. dstep.
  cbn [fst snd]. split; [done|]. split; [by rewrite <- !app_assoc|].
  cbn [with_row workflow_structure]. split; [by rewrite length_map|].
  intros i x Hx. by rewrite list_lookup_fmap, Hx.
Qed.

Lemma update_replaces_the_one_row_witness :
  is_deleted (row "wf-3" "Old" true) = JBool true ∧
  (update_workflow no_faults assign_name "wf-3" rename_data demo_session).1
    = Ok (success_dict "Workflow updated successfully") ∧
  calls (update_workflow no_faults assign_name "wf-3" rename_data demo_session).2
    = calls demo_session ++ [CallExecute; CallAdd; CallCommit] ∧
  length (workflow_structure
            (store (update_workflow no_faults assign_name "wf-3" rename_data
                      demo_session).2))
    = length (workflow_structure (store demo_session)) ∧
  ∀ i x, workflow_structure (store demo_session) !! i = Some x →
         workflow_structure
           (store (update_workflow no_faults assign_name "wf-3" rename_data
                     demo_session).2) !! i
           = Some (if sql_eq_str "wf-3" (id x)
                   then row "wf-3" "Archive" true else x).
Proof.
  split; [reflexivity|].
  apply (update_replaces_the_one_row no_faults assign_name "wf-3" rename_data
           demo_session (row "wf-3" "Old" true) (row "wf-3" "Archive" true));
    reflexivity.
Defined.

(** ** Feedback *)

(** X18.  [create_workflow_submission] records a feedback as positive only
    for the exact string "positive": after a success the table has one more
    row, for the workflow id sent, and that row is positive exactly when
    "feedback" was that string; any other value, another spelling, or no
    "feedback" at all, is recorded as negative. *)
Theorem feedback_is_positive_only_for_the_exact_string F data s :
  (create_workflow_submission F data s).1
    = Ok (success_dict "Workflow submission created successfully") →
  ∃ row,
    workflow_submission (store (create_workflow_submission F data s).2)
      = workflow_submission (store s) ++ [row] ∧
    workflow_id row = default JNull (data !! "workflowId") ∧
    (is_positive row = true ↔ data !! "feedback" = Some (JStr "positive")).
Proof.
  destruct s as [d c]. run_db.
  destruct (commit_error F); dstep.
  { destruct (rollback_error F); not_success. }
  intros _. eexists. split; [reflexivity|]. split; [reflexivity|].
  cbn [is_positive]. unfold is_positive_feedback, dict_get.
  destruct (data !! "feedback") as [[| | |t| |]|]; cbn; try (split; [done|by intros [=]]).
  destruct (String.eqb_spec t "positive") as [->|Hne]; split; try done.
  intros [= ->]. done.
Qed.

Lemma feedback_is_positive_only_for_the_exact_string_witness :
  ∃ row,
    workflow_submission
      (store (create_workflow_submission no_faults feedback_data demo_session).2)
      = workflow_submission (store demo_session) ++ [row] ∧
    workflow_id row = default JNull (feedback_data !! "workflowId") ∧
    (is_positive row = true ↔ feedback_data !! "feedback" = Some (JStr "positive")).
Proof.
  apply (feedback_is_positive_only_for_the_exact_string no_faults feedback_data
           demo_session).
  reflexivity.
Defined.

End DbProperties.

(** * The session dependency *)

Section GetDbFacts.
Import Providers.
Context (F : session_faults).

Lemma get_db_step_history op g :
  session_history g → session_history (get_db_step F op g).2.
Proof.
  destruct g as [[] evs]; unfold session_history, get_db_step, run_finally;
    cbn [frame_of events]; intros H.
  - subst evs. destruct op; [destruct (open_error F)| |]; cbn; auto.
  - subst evs. destruct op; destruct (close_error F); cbn; auto.
  - destruct op; cbn; exact H.
Qed.

(** X19.  Whatever the caller does with the generator of [get_db] (any
    sequence of [next], [throw] and [close]), the session is opened at most
    once, is open exactly while the generator is suspended at its [yield],
    and has been closed, once, whenever the generator has finished after
    yielding it, also when it finished by an exception thrown into it or
    when [close()] itself raised. *)
Theorem session_is_closed_when_the_generator_finishes ops :
  let g := get_db_run F ops get_db in
  match frame_of g with
  | NotStarted => events g = []
  | AtYield => events g = [Opened]
  | Finished => events g = [] ∨ events g = [Opened; Closed]
  end.
Proof.
  assert (H : ∀ g, session_history g → session_history (get_db_run F ops g)).
  { induction ops as [|op ops IH]; intros g Hg; [done|].
    cbn. apply IH. by apply get_db_step_history. }
  exact (H get_db eq_refl).
Qed.

End GetDbFacts.
